(** * epaper-display.py: the OpenCanary e-Paper status display

    A shallow embedding of [src/epaper-display.py] and the properties its
    specification states about it.

    - [parse_config]          (ConfigReader.read)
    - [check_honeypot_status] (StatusProbe.check)
    - [display_on_epaper]     (Renderer.render)
    - [tick], [loop], [main]  (Loop)

    Python [str] values are Rocq strings (the UTF-8 bytes of the text).  The
    world the script talks to (the config file, [systemctl], the fonts, the
    panel, Ctrl-C) is an explicit input of the model. *)

From Stdlib Require Import String Ascii List ZArith Lia Bool DecimalString.
From Stdlib Require Import Permutation Sorted.
Import ListNotations.
Open Scope string_scope.
Open Scope Z_scope.

(** ** Python string methods used by the script *)

(** [s.endswith(suffix)]: the last [len(suffix)] characters of [s] are
    [suffix]. *)
Definition endswith (s suffix : string) : bool :=
  (String.length suffix <=? String.length s)%nat &&
  (substring (String.length s - String.length suffix) (String.length suffix) s
   =? suffix)%string.

(** [s.split(sep)] for a one-character separator: never empty, one more part
    than there are separators. *)
Fixpoint split (sep : ascii) (s : string) : list string :=
  match s with
  | EmptyString => [EmptyString]
  | String c rest =>
      if Ascii.eqb c sep then EmptyString :: split sep rest
      else match split sep rest with
           | part :: parts => String c part :: parts
           | [] => [String c EmptyString]
           end
  end.

(** [parts[0]] on the result of [split], which always has a first part. *)
Definition first_part (parts : list string) : string := hd EmptyString parts.

(** The portion of [s] before its first ["."] (all of [s] when it has
    none), as the spec words [key.split(".")[0]]. *)
Fixpoint before_first_dot (s : string) : string :=
  match s with
  | EmptyString => EmptyString
  | String c rest =>
      if Ascii.eqb c "." then EmptyString else String c (before_first_dot rest)
  end.

(** ASCII instances of [str.upper], [str.lower] and [str.strip]; they agree
    with Python on ASCII text and are used to run the model on examples. *)
Definition ascii_upper_char (c : ascii) : ascii :=
  let n := nat_of_ascii c in
  if ((97 <=? n) && (n <=? 122))%nat then ascii_of_nat (n - 32) else c.

Definition ascii_lower_char (c : ascii) : ascii :=
  let n := nat_of_ascii c in
  if ((65 <=? n) && (n <=? 90))%nat then ascii_of_nat (n + 32) else c.

Fixpoint map_string (f : ascii -> ascii) (s : string) : string :=
  match s with
  | EmptyString => EmptyString
  | String c rest => String (f c) (map_string f rest)
  end.

Definition ascii_upper : string -> string := map_string ascii_upper_char.
Definition ascii_lower : string -> string := map_string ascii_lower_char.

(** The ASCII characters for which [str.isspace] holds. *)
Definition is_space (c : ascii) : bool :=
  let n := nat_of_ascii c in
  (((9 <=? n) && (n <=? 13)) || ((28 <=? n) && (n <=? 32)))%nat.

Fixpoint lstrip (s : string) : string :=
  match s with
  | EmptyString => EmptyString
  | String c rest => if is_space c then lstrip rest else s
  end.

Fixpoint rstrip (s : string) : string :=
  match s with
  | EmptyString => EmptyString
  | String c rest =>
      let r := rstrip rest in
      if is_space c && (r =? EmptyString)%string then EmptyString
      else String c r
  end.

Definition ascii_strip (s : string) : string := rstrip (lstrip s).

(** ** Values produced by [json.load] *)

(** A value stored under a key of the configuration object.  [parse_config]
    reads only two things off a value: whether it is a [bool] (and which),
    and the text [str()] gives for it.  Floats and nested containers
    therefore carry that text. *)
Inductive value : Type :=
| JNull
| JBool (b : bool)
| JInt (n : Z)
| JString (s : string)
| JFloat (shown : string)
| JArray (shown : string)
| JObject (shown : string).

(** A Python [dict] with string keys: insertion-ordered, keys unique
    ([NoDup (map fst d)]). *)
Definition dict : Type := list (string * value).

Definition well_formed (d : dict) : Prop := NoDup (map fst d).

(** [d.get(key, default)] *)
Fixpoint dict_get (d : dict) (key : string) (default : value) : value :=
  match d with
  | [] => default
  | (k, v) :: rest => if (k =? key)%string then v else dict_get rest key default
  end.

(** What [json.load] returns for a whole document. *)
Inductive document : Type :=
| DDict (members : dict)
| DList
| DStr
| DInt
| DFloat
| DBool
| DNone.

(** [type(x).__name__] *)
Definition type_name (doc : document) : string :=
  match doc with
  | DDict _ => "dict"
  | DList => "list"
  | DStr => "str"
  | DInt => "int"
  | DFloat => "float"
  | DBool => "bool"
  | DNone => "NoneType"
  end.

(** [isinstance(v, bool)] *)
Definition isinstance_bool (v : value) : bool :=
  match v with JBool _ => true | _ => false end.

(** Truth value of a [bool]. *)
Definition truth (v : value) : bool :=
  match v with JBool b => b | _ => false end.

(** [str(v)], as the f-string [f"{port}"] formats it. *)
Definition py_str (v : value) : string :=
  match v with
  | JNull => "None"
  | JBool true => "True"
  | JBool false => "False"
  | JInt n => NilZero.string_of_int (Z.to_int n)
  | JString s => s
  | JFloat shown => shown
  | JArray shown => shown
  | JObject shown => shown
  end.

(** ** Errors raised inside [parse_config]'s [try] block *)

(** Both classes derive from [Exception]; [msg] is [str(e)]. *)
Inductive error : Type :=
| JSONDecodeError (msg : string)
| OtherError (msg : string).

Inductive result (A : Type) : Type :=
| Ok (a : A)
| Err (e : error).
Arguments Ok {A} a.
Arguments Err {A} e.

(** What happens at lines 19-20 ([open] and [json.load]). *)
Inductive load_result : Type :=
| Loaded (doc : document)
| OpenRaises (msg : string)
| LoadRaisesDecode (msg : string)
| LoadRaises (msg : string).

(** The config file as [parse_config] finds it. *)
Inductive file_state : Type :=
| Missing
| Present (r : load_result).

(** ** The text of a config file *)

(** Whitespace between JSON tokens: RFC 8259, and the [WHITESPACE] pattern
    of Python's [json.decoder]. *)
Definition json_ws (c : ascii) : bool :=
  existsb (Ascii.eqb c)
          [ascii_of_nat 32; ascii_of_nat 9; ascii_of_nat 10; ascii_of_nat 13].

Fixpoint skip_ws (s : string) : string :=
  match s with
  | EmptyString => EmptyString
  | String c rest => if json_ws c then skip_ws rest else s
  end.

Fixpoint all_ws (s : string) : bool :=
  match s with
  | EmptyString => true
  | String c rest => json_ws c && all_ws rest
  end.

(** In the grammar of RFC 8259 a JSON text is a value between whitespace,
    and a value starts with a brace, a bracket, a quote, a minus sign, a
    digit, or the first letter of [true], [false] or [null].  A text that
    starts otherwise is not valid JSON. *)
Definition starts_json_value (text : string) : bool :=
  match skip_ws text with
  | EmptyString => false
  | String c _ =>
      existsb (Ascii.eqb c)
              (ascii_of_nat 34 :: list_ascii_of_string "{[-0123456789tfn")
  end.

(** The literal names the scanner of Python's [json] module accepts and the
    type of the value each loads as.  [NaN], [Infinity] and [-Infinity] are
    accepted as floats although they are not JSON. *)
Definition json_constants : list (string * document) :=
  [("null", DNone); ("true", DBool); ("false", DBool);
   ("NaN", DFloat); ("Infinity", DFloat); ("-Infinity", DFloat)].

(** Lines 19-20 on a file whose text is one literal name between whitespace;
    [None] for any other text, which this fragment does not describe. *)
Definition load_literal (text : string) : option load_result :=
  let body := skip_ws text in
  match find (fun kc =>
                String.prefix (fst kc) body
                && all_ws (substring (String.length (fst kc))
                                     (String.length body) body))
             json_constants with
  | Some (_, doc) => Some (Loaded doc)
  | None => None
  end.

(** The spec's examples as dictionaries. *)
Definition example_config : dict :=
  [("ftp.enabled", JBool true); ("ftp.port", JInt 21);
   ("http.enabled", JBool false)].

Definition example_ssh : dict := [("ssh.enabled", JBool true)].

(** ** What [subprocess.run] does *)
Inductive run_result : Type :=
| Completed (returncode : Z) (stdout : string)
| RunRaises (msg : string).

(** ** The renderer's collaborators: fonts, canvas, panel *)

Inductive face : Type := DejaVuSans | DejaVuSansBold.

Record font : Type := truetype { font_face : face; font_size : Z }.

Definition font_title : font := truetype DejaVuSansBold 20.
Definition font_status : font := truetype DejaVuSans 14.
Definition font_heading : font := truetype DejaVuSansBold 16.
Definition font_services : font := truetype DejaVuSans 14.

(** One [draw.text((x, y), text, font=..., fill=0)] call. *)
Record text_op : Type := draw_text {
  op_x : Z;
  op_y : Z;
  op_text : string;
  op_font : font
}.

(** The canvas: [Image.new("1", size, fill)] plus the texts drawn on it. *)
Record image : Type := mk_image {
  img_size : Z * Z;
  img_fill : Z;
  img_texts : list text_op
}.

(** A font metric to run the layout on: every text is as high as its font
    size, three pixels more when a glyph reaches below the baseline. *)
Definition has_descender (s : string) : bool :=
  let fix go (t : string) : bool :=
    match t with
    | EmptyString => false
    | String c rest =>
        existsb (Ascii.eqb c) (list_ascii_of_string "gjpqy()/,;") || go rest
    end in
  go s.

Definition sample_bbox (f : font) (text : string) : Z :=
  font_size f + (if has_descender text then 3 else 0).

(** A metric that gives every text the height of its font. *)
Definition flat_bbox (f : font) (text : string) : Z := font_size f.

(** The same, with an empty box for the empty text. *)
Definition empty_aware_bbox (f : font) (text : string) : Z :=
  match text with
  | EmptyString => 0
  | _ => font_size f
  end.

(** A metric for fonts of any size: [sample_bbox], never below zero. *)
Definition nonneg_bbox (f : font) (text : string) : Z :=
  Z.max 0 (sample_bbox f text).

(** Nine service lines, one more than the renderer draws. *)
Definition nine_services : list string :=
  ["FTP on Port 21"; "SSH on Port 22"; "TELNET on Port 23"; "HTTP on Port 80";
   "NTP on Port 123"; "SNMP on Port 161"; "MYSQL on Port 3306";
   "RDP on Port 3389"; "VNC on Port 5000"].

(** ** Exceptions and events of the main loop *)

(** What can escape a tick.  [KeyboardInterrupt] and [SystemExit] derive from
    [BaseException] only; [Exception msg] stands for every class derived
    from [Exception], with [msg = str(e)]. *)
Inductive exn : Type :=
| KeyboardInterrupt
| SystemExit
| Exception (msg : string).

(** The calls the script makes to the outside, in order. *)
Inductive event : Type :=
| NewEPD
| PrintLine (line : string)
| CallDisplay (status : string) (services : list string)
| EpdInit
| EpdClear
| EpdDisplay (canvas : image)
| EpdSleep
| TimeSleep (seconds : Z)
| ModuleExit.

(** [last_status], [last_services]; [None] is Python's [None]. *)
Record snapshot : Type := mk_snapshot {
  last_status : option string;
  last_services : option (list string)
}.

Definition no_snapshot : snapshot := mk_snapshot None None.

(** What the outside does during one pass through the [while] body. *)
Record world : Type := mk_world {
  w_systemctl : run_result;
  w_config : file_state;
  (** an exception escaping the two polling calls, which catch [Exception]
      themselves: in practice Ctrl-C *)
  w_poll_fault : option exn;
  (** [display_on_epaper] raises [e] after [n] of its panel calls *)
  w_render_fault : option (nat * exn);
  (** [time.sleep] is interrupted *)
  w_sleep_fault : option exn
}.

Definition newline : string := String (ascii_of_nat 10) EmptyString.

(** Three passes to run the loop on: a quiet one, one in which a font file
    is missing, one interrupted during the sleep. *)
Definition quiet_world : world :=
  mk_world (Completed 0 ("active" ++ newline))
           (Present (Loaded (DDict example_config))) None None None.

Definition broken_font_world : world :=
  mk_world (Completed 3 ("inactive" ++ newline))
           (Present (Loaded (DDict example_config)))
           None (Some (2%nat, Exception "cannot open resource")) None.

Definition interrupted_world : world :=
  mk_world (Completed 0 ("active" ++ newline))
           (Present (Loaded (DDict example_config)))
           None None (Some KeyboardInterrupt).

(** A pass in which something calls [sys.exit()] during the sleep. *)
Definition exiting_world : world :=
  mk_world (Completed 0 ("active" ++ newline))
           (Present (Loaded (DDict example_config)))
           None None (Some SystemExit).

(** A sub-key of a service, its port listed last; and two enabled services
    in either order. *)
Definition nested_config : dict :=
  [("ssh.banner.enabled", JBool true); ("http.enabled", JBool false);
   ("ssh.port", JInt 22)].

Definition untyped_flags : dict :=
  [("ssh.enabled", JInt 1); ("ftp.enabled", JString "true");
   ("http.enabled", JBool false); ("enabled", JBool true)].

Definition ftp_then_ssh : dict :=
  [("ftp.enabled", JBool true); ("ssh.enabled", JBool true)].

Definition ssh_then_ftp : dict :=
  [("ssh.enabled", JBool true); ("ftp.enabled", JBool true)].

(** Outcome of a computation that may raise. *)
Inductive outcome (A : Type) : Type :=
| Returns (a : A)
| Raises (e : exn).
Arguments Returns {A} a.
Arguments Raises {A} e.

(** A computation of the loop: reads and writes the snapshot, logs events,
    returns or raises.  The snapshot and the log survive a raise. *)
Definition M (A : Type) : Type := snapshot -> outcome A * snapshot * list event.

Definition ret {A} (a : A) : M A := fun s => (Returns a, s, []).

Definition bind {A B} (m : M A) (k : A -> M B) : M B :=
  fun s =>
    match m s with
    | (Returns a, s1, log1) =>
        match k a s1 with
        | (r, s2, log2) => (r, s2, (log1 ++ log2)%list)
        end
    | (Raises e, s1, log1) => (Raises e, s1, log1)
    end.

Definition raise {A} (e : exn) : M A := fun s => (Raises e, s, []).
Definition emit (ev : event) : M unit := fun s => (Returns tt, s, [ev]).
Definition emit_all (evs : list event) : M unit := fun s => (Returns tt, s, evs).
Definition get_snapshot : M snapshot := fun s => (Returns s, s, []).
Definition put_snapshot (s' : snapshot) : M unit := fun _ => (Returns tt, s', []).

Declare Scope loop_scope.
Delimit Scope loop_scope with loop.
Notation "x <- m ;; k" := (bind m (fun x => k))
  (at level 61, m at next level, right associativity) : loop_scope.
Notation "m ;; k" := (bind m (fun _ => k))
  (at level 61, right associativity) : loop_scope.

(** A call that returns [a] unless the outside makes it raise. *)
Definition may_raise {A} (fault : option exn) (a : A) : M A :=
  match fault with
  | Some e => raise e
  | None => ret a
  end.

(** [x != last] where [last] may be [None]. *)
Definition ne_string (x : string) (last : option string) : bool :=
  match last with
  | None => true
  | Some y => negb (x =? y)%string
  end.

Definition list_eqb (a b : list string) : bool :=
  if list_eq_dec string_dec a b then true else false.

Definition ne_list (x : list string) (last : option (list string)) : bool :=
  match last with
  | None => true
  | Some y => negb (list_eqb x y)
  end.

Definition REFRESH_INTERVAL : Z := 10.

(** How the run of [main] over a finite prefix of the outside's behaviour
    ends. *)
Inductive ending : Type :=
| StillLooping
| Exited
| Propagated (e : exn).

Definition count_event (p : event -> bool) (log : list event) : nat :=
  List.length (filter p log).

Definition is_call_display (ev : event) : bool :=
  match ev with CallDisplay _ _ => true | _ => false end.

Definition is_module_exit (ev : event) : bool :=
  match ev with ModuleExit => true | _ => false end.

(** Number of times [display_on_epaper] was called in a log. *)
Definition render_calls (log : list event) : nat := count_event is_call_display log.

(** Number of [epdconfig.module_exit()] calls in a log. *)
Definition cleanup_calls (log : list event) : nat := count_event is_module_exit log.

Section Program.

(** [str.upper], [str.lower], [str.strip]: Python's own, Unicode-aware
    methods; nothing below depends on how they map characters. *)
Variables upper lower strip : string -> string.

(** [draw.textbbox((0, 0), text, font=f)[3]]: the bottom of the text's
    bounding box as the font library measures it. *)
Variable textbbox3 : font -> string -> Z.

(** [epd.width], [epd.height]: the panel's native extents. *)
Variables epd_width epd_height : Z.

(** *** ConfigReader: [parse_config] *)

(** The test of line 24. *)
Definition is_enabled (key : string) (v : value) : bool :=
  isinstance_bool v && endswith key ".enabled" && truth v.

(** Lines 25-28: the line appended for an enabled key. *)
Definition service_line (config : dict) (key : string) : string :=
  let service_name := upper (first_part (split "." key)) in
  let port_key := lower service_name ++ ".port" in
  let port := dict_get config port_key (JString "N/A") in
  service_name ++ " on Port " ++ py_str port.

(** The [for] loop of lines 23-28 over the remaining items, threading
    [active_services]. *)
Fixpoint collect (config : dict) (items : dict) (active_services : list string)
  : list string :=
  match items with
  | [] => active_services
  | (key, v) :: rest =>
      if is_enabled key v
      then collect config rest ((active_services ++ [service_line config key])%list)
      else collect config rest active_services
  end.

(** [x or default] for lists: an empty list is falsy. *)
Definition or_default (x default : list string) : list string :=
  match x with
  | [] => default
  | _ => x
  end.

(** Lines 19-20. *)
Definition json_load (r : load_result) : result document :=
  match r with
  | Loaded doc => Ok doc
  | OpenRaises msg => Err (OtherError msg)
  | LoadRaisesDecode msg => Err (JSONDecodeError msg)
  | LoadRaises msg => Err (OtherError msg)
  end.

(** [config.items()]: an [AttributeError] unless [config] is a dict. *)
Definition items (doc : document) : result dict :=
  match doc with
  | DDict members => Ok members
  | _ => Err (OtherError ("'" ++ type_name doc ++ "' object has no attribute 'items'"))
  end.

(** The body of the [try] block, lines 19-30. *)
Definition parse_config_body (r : load_result) : result (list string) :=
  match json_load r with
  | Err e => Err e
  | Ok config =>
      match items config with
      | Err e => Err e
      | Ok members =>
          Ok (or_default (collect members members [])
                         ["No active services found"])
      end
  end.

Definition parse_config (config_file : file_state) : list string :=
  match config_file with
  | Missing => ["Error: Config file not found"]
  | Present r =>
      match parse_config_body r with
      | Ok lines => lines
      | Err (JSONDecodeError msg) => ["Error: Invalid JSON (" ++ msg ++ ")"]
      | Err (OtherError msg) => ["Error: " ++ msg]
      end
  end.

(** The spec's wording of the enabled-service rule, to compare
    [parse_config] with: a key ending in [.enabled] whose value is the
    boolean [true]. *)
Definition spec_matches (kv : string * value) : bool :=
  match snd kv with
  | JBool true => endswith (fst kv) ".enabled"
  | _ => false
  end.

(** The spec's port text: the companion key's value if present, [N/A] if
    absent. *)
Definition spec_port (config : dict) (port_key : string) : string :=
  match find (fun kv => (fst kv =? port_key)%string) config with
  | Some (_, v) => py_str v
  | None => "N/A"
  end.

(** The spec's line for a matching key. *)
Definition spec_line (config : dict) (kv : string * value) : string :=
  let service_name := upper (before_first_dot (fst kv)) in
  service_name ++ " on Port " ++ spec_port config (lower service_name ++ ".port").

Definition spec_lines (config : dict) : list string :=
  map (spec_line config) (filter spec_matches config).

(** *** StatusProbe: [check_honeypot_status] *)

Definition check_honeypot_status (r : run_result) : string :=
  match r with
  | Completed returncode stdout =>
      if returncode =? 0 then "Active"
      else if (strip stdout =? "inactive")%string then "Inactive"
      else "Unknown status (" ++ strip stdout ++ ")"
  | RunRaises msg => "Error checking status (" ++ msg ++ ")"
  end.

(** The spec's mapping, one rule per case. *)
Inductive probe_spec : run_result -> string -> Prop :=
| probe_active : forall stdout,
    probe_spec (Completed 0 stdout) "Active"
| probe_inactive : forall returncode stdout,
    returncode <> 0 -> strip stdout = "inactive" ->
    probe_spec (Completed returncode stdout) "Inactive"
| probe_unknown : forall returncode stdout,
    returncode <> 0 -> strip stdout <> "inactive" ->
    probe_spec (Completed returncode stdout)
               ("Unknown status (" ++ strip stdout ++ ")")
| probe_error : forall msg,
    probe_spec (RunRaises msg) ("Error checking status (" ++ msg ++ ")").

(** *** Renderer: [display_on_epaper] *)

Definition line_spacing : Z := 5.
Definition extra_spacing_after_status : Z := 10.

Definition title_height : Z := textbbox3 font_title "Not a Honeypot".
Definition status_height (status : string) : Z :=
  textbbox3 font_status ("Status: " ++ status).
Definition heading_height : Z := textbbox3 font_heading "Listening for:".
Definition services_height (services : list string) : Z :=
  Z.of_nat (List.length services) * (textbbox3 font_services "A" + line_spacing).

Definition total_text_height (status : string) (services : list string) : Z :=
  title_height + status_height status + heading_height
  + services_height services + (line_spacing * 3) + extra_spacing_after_status.

(** Python's [//] by 2 is [Z.div]: both round down. *)
Definition start_y (status : string) (services : list string) : Z :=
  Z.max 0 ((epd_width - total_text_height status services) / 2).

(** The [for] loop of lines 90-92, threading [y]. *)
Fixpoint draw_services (y : Z) (lines : list string) : list text_op :=
  match lines with
  | [] => []
  | line :: rest =>
      draw_text 10 y line font_services
      :: draw_services (y + (textbbox3 font_services line + line_spacing)) rest
  end.

(** Lines 80-92: the texts drawn, top to bottom. *)
Definition draw_block (status : string) (services : list string) : list text_op :=
  let y0 := start_y status services in
  let y1 := y0 + (title_height + line_spacing) in
  let y2 := y1 + (status_height status + line_spacing + extra_spacing_after_status) in
  let y3 := y2 + (heading_height + line_spacing) in
  draw_text 10 y0 "Not a Honeypot" font_title
  :: draw_text 10 y1 status font_status
  :: draw_text 10 y2 "Listening for:" font_heading
  :: draw_services y3 (firstn 8 services).

(** The service lines among the drawn texts: what the [for] loop drew. *)
Definition service_ops (status : string) (services : list string) : list text_op :=
  skipn 3 (draw_block status services).

Definition canvas (status : string) (services : list string) : image :=
  mk_image (epd_height, epd_width) 255 (draw_block status services).

(** The panel calls of a run of [display_on_epaper] that returns. *)
Definition display_calls (status : string) (services : list string) : list event :=
  [EpdInit; EpdClear; EpdDisplay (canvas status services); EpdSleep].

(** [display_on_epaper(epd, status, services)] as the loop calls it. *)
Definition display_on_epaper (fault : option (nat * exn))
    (status : string) (services : list string) : M unit :=
  (emit (CallDisplay status services) ;;
   match fault with
   | None => emit_all (display_calls status services)
   | Some (n, e) =>
       emit_all (firstn n (display_calls status services)) ;; raise e
   end)%loop.

(** The measured height of a drawn text, and the height the claim of the
    spec gives to a block of drawn texts: every line's measured height plus
    5px, plus the one 10px gap. *)
Definition measured (op : text_op) : Z := textbbox3 (op_font op) (op_text op).

Definition block_height (ops : list text_op) : Z :=
  fold_right (fun op acc => measured op + line_spacing + acc) 0 ops
  + extra_spacing_after_status.

(** The height budgeted for a service line: that of the reference text
    ["A"] in the line's font. *)
Definition nominal (op : text_op) : Z := textbbox3 (op_font op) "A".

(** The height of a drawn block when its service lines (all texts after the
    title, the status and the heading) count with their nominal height. *)
Definition budget_height (ops : list text_op) : Z :=
  fold_right (fun op acc => measured op + line_spacing + acc) 0 (firstn 3 ops)
  + fold_right (fun op acc => nominal op + line_spacing + acc) 0 (skipn 3 ops)
  + extra_spacing_after_status.

(** Every text starts where the one before it ended, 5px lower. *)
Fixpoint stacked (ops : list text_op) : Prop :=
  match ops with
  | a :: (b :: _) as rest =>
      op_y b = op_y a + (measured a + line_spacing) /\ stacked rest
  | _ => True
  end.

(** *** Loop: [main] *)

(** One pass through the body of [while True], lines 105-121. *)
Definition tick (w : world) : M unit :=
  (honeypot_status <- may_raise (w_poll_fault w)
                        (check_honeypot_status (w_systemctl w)) ;;
   services <- ret (parse_config (w_config w)) ;;
   last <- get_snapshot ;;
   (if ne_string honeypot_status (last_status last)
       || ne_list services (last_services last)
    then
      emit (PrintLine "Changes detected. Refreshing display...") ;;
      display_on_epaper (w_render_fault w) honeypot_status services ;;
      put_snapshot (mk_snapshot (Some honeypot_status) (Some services))
    else
      emit (PrintLine "No changes detected. Skipping refresh...")) ;;
   emit (TimeSleep REFRESH_INTERVAL) ;;
   may_raise (w_sleep_fault w) tt)%loop.

(** [while True] over the passes the outside lets happen. *)
Fixpoint loop (ws : list world) : M unit :=
  match ws with
  | [] => ret tt
  | w :: rest => (tick w ;; loop rest)%loop
  end.

(** Line 98 and the [try] block of [main], from no prior snapshot. *)
Definition run (ws : list world) : outcome unit * snapshot * list event :=
  (emit NewEPD ;; loop ws)%loop no_snapshot.

(** [main()]: the [try] around the loop and its two handlers. *)
Definition main (ws : list world) : ending * list event :=
  match run ws with
  | (Returns _, _, log) => (StillLooping, log)
  | (Raises KeyboardInterrupt, _, log) =>
      (Exited, (log ++ [PrintLine "Exiting..."; ModuleExit])%list)
  | (Raises (Exception msg), _, log) =>
      (Exited, (log ++ [PrintLine ("Unexpected error: " ++ msg); ModuleExit])%list)
  | (Raises SystemExit, _, log) => (Propagated SystemExit, log)
  end.

(** The pair a tick computes. *)
Definition polled (w : world) : string * list string :=
  (check_honeypot_status (w_systemctl w), parse_config (w_config w)).

(** The value comparison of line 112 as a proposition. *)
Definition differs (p : string * list string) (s : snapshot) : Prop :=
  (Some (fst p), Some (snd p)) <> (last_status s, last_services s).

(** The snapshot stored after rendering a pair. *)
Definition taken (p : string * list string) : snapshot :=
  mk_snapshot (Some (fst p)) (Some (snd p)).

Definition tick_outcome (w : world) (s : snapshot) : outcome unit :=
  fst (fst (tick w s)).
Definition tick_snapshot (w : world) (s : snapshot) : snapshot :=
  snd (fst (tick w s)).
Definition tick_log (w : world) (s : snapshot) : list event :=
  snd (tick w s).

(** *** Runs of the loop *)

(** A pass in which nothing raises.  What [systemctl] and the config file do
    is not restricted. *)
Definition fault_free (w : world) : Prop :=
  w_poll_fault w = None /\ w_render_fault w = None /\ w_sleep_fault w = None.

Definition pair_eqb (p q : string * list string) : bool :=
  (fst p =? fst q)%string && list_eqb (snd p) (snd q).

(** How often a sequence of polled pairs changes value from one pair to the
    next; the first pair counts when nothing came before it. *)
Fixpoint value_changes (prev : option (string * list string))
    (pairs : list (string * list string)) : nat :=
  match pairs with
  | [] => 0%nat
  | p :: rest =>
      ((match prev with
        | None => 1
        | Some q => if pair_eqb p q then 0 else 1
        end) + value_changes (Some p) rest)%nat
  end.

(** The snapshot that stands for the last pair rendered. *)
Definition stored (prev : option (string * list string)) : snapshot :=
  match prev with
  | None => no_snapshot
  | Some q => taken q
  end.

(** The last pair of a sequence, if any, else [prev]. *)
Definition last_pair (prev : option (string * list string))
    (pairs : list (string * list string)) : option (string * list string) :=
  fold_left (fun _ p => Some p) pairs prev.

Definition is_time_sleep (ev : event) : bool :=
  match ev with TimeSleep _ => true | _ => false end.

(** Number of [time.sleep] calls in a log. *)
Definition sleep_calls (log : list event) : nat := count_event is_time_sleep log.

(** A drawn text ends, with its spacing, at or above the start of another:
    the two do not overlap. *)
Definition above (a b : text_op) : Prop :=
  op_y a + measured a + line_spacing <= op_y b.

(** ** Facts about the string methods *)

Lemma substring_whole (s : string) : substring 0 (String.length s) s = s.
Proof.
  induction s as [|c s IH]; simpl; [reflexivity | now rewrite IH].
Qed.

Lemma substring_skip_prefix (p s : string) (n : nat) :
  substring (String.length p) n (p ++ s) = substring 0 n s.
Proof.
  induction p as [|c p IH]; simpl; [reflexivity | exact IH].
Qed.

Lemma substring_cut (s : string) (n : nat) :
  (n <= String.length s)%nat ->
  s = substring 0 n s ++ substring n (String.length s - n) s.
Proof.
  revert n; induction s as [|c s IH]; intros n Hn; simpl in *.
  - destruct n; reflexivity.
  - destruct n as [|n]; simpl.
    + now rewrite substring_whole.
    + f_equal. apply IH. lia.
Qed.

Lemma length_append (a b : string) :
  String.length (a ++ b) = (String.length a + String.length b)%nat.
Proof.
  induction a as [|c a IH]; simpl; [reflexivity | now rewrite IH].
Qed.

(** [endswith] holds exactly of the strings that are some text followed by
    the suffix. *)
Lemma endswith_spec (s suffix : string) :
  endswith s suffix = true <-> exists p, s = p ++ suffix.
Proof.
  unfold endswith; rewrite andb_true_iff, Nat.leb_le, String.eqb_eq; split.
  - intros [Hlen Hsub].
    exists (substring 0 (String.length s - String.length suffix) s).
    rewrite (substring_cut s (String.length s - String.length suffix)) at 1 by lia.
    f_equal.
    replace (String.length s - (String.length s - String.length suffix))%nat
      with (String.length suffix) by lia.
    exact Hsub.
  - intros [p ->]; rewrite length_append; split; [lia|].
    replace (String.length p + String.length suffix - String.length suffix)%nat
      with (String.length p) by lia.
    rewrite substring_skip_prefix. apply substring_whole.
Qed.

Lemma split_not_nil (sep : ascii) (s : string) : split sep s <> [].
Proof.
  destruct s as [|c s]; simpl; [discriminate|].
  destruct (Ascii.eqb c sep); [discriminate|].
  destruct (split sep s); discriminate.
Qed.

(** [key.split(".")[0]] is the portion of the key before its first dot. *)
Lemma first_part_split (key : string) :
  first_part (split "." key) = before_first_dot key.
Proof.
  induction key as [|c key IH]; simpl; [reflexivity|].
  destruct (Ascii.eqb c "."); [reflexivity|].
  destruct (split "." key) as [|part parts] eqn:E.
  - now apply split_not_nil in E.
  - simpl in *. now rewrite IH.
Qed.

Lemma before_first_dot_no_dot (p rest : string) :
  before_first_dot p = p ->
  before_first_dot (p ++ String "." rest) = p.
Proof.
  induction p as [|c p IH]; simpl; [reflexivity|].
  destruct (Ascii.eqb c ".") eqn:E; [discriminate|].
  intros H; injection H as H. now rewrite IH.
Qed.

(** ** ConfigReader *)

Lemma dict_get_spec_port (config : dict) (key : string) :
  py_str (dict_get config key (JString "N/A")) = spec_port config key.
Proof.
  unfold spec_port.
  induction config as [|[k v] config IH]; simpl; [reflexivity|].
  destruct (k =? key)%string; [reflexivity | exact IH].
Qed.

Lemma is_enabled_spec (key : string) (v : value) :
  is_enabled key v = spec_matches (key, v).
Proof.
  unfold is_enabled, spec_matches; simpl.
  destruct v as [|[|]| | | | |]; simpl;
    try reflexivity; now rewrite ?andb_true_r, ?andb_false_r.
Qed.

Lemma service_line_spec (config : dict) (key : string) (v : value) :
  service_line config key = spec_line config (key, v).
Proof.
  unfold service_line, spec_line; simpl.
  now rewrite first_part_split, dict_get_spec_port.
Qed.

(** The loop appends, to what it has, the lines of the matching items in
    the order it meets them. *)
Lemma collect_spec (config items : dict) (acc : list string) :
  collect config items acc
  = (acc ++ map (spec_line config) (filter spec_matches items))%list.
Proof.
  revert acc; induction items as [|[key v] items IH]; intros acc; simpl.
  - now rewrite app_nil_r.
  - rewrite is_enabled_spec.
    destruct (spec_matches (key, v)); simpl; rewrite IH.
    + now rewrite <- app_assoc, (service_line_spec config key v).
    + reflexivity.
Qed.

(** In a dict the matching items have pairwise distinct keys: one line per
    key. *)
Lemma matching_keys_distinct (config : dict) :
  well_formed config -> NoDup (map fst (filter spec_matches config)).
Proof.
  unfold well_formed.
  induction config as [|kv config IH]; intros Hnd; [constructor|].
  inversion Hnd as [|k ks Hnotin Hrest]; subst.
  cbn [filter]. destruct (spec_matches kv); [|now apply IH].
  cbn [map]. constructor; [|now apply IH].
  intros Hin. apply Hnotin.
  apply in_map_iff in Hin as (kv' & Hk & Hin').
  apply filter_In in Hin' as [Hin' _].
  apply in_map_iff. now exists kv'.
Qed.

Lemma or_default_in (x : string) (l d : list string) :
  In x l -> In x (or_default l d).
Proof. destruct l; [intros [] | trivial]. Qed.

Lemma or_default_length (l d : list string) :
  l <> [] -> or_default l d = l.
Proof. destruct l; [congruence | reflexivity]. Qed.

Lemma parse_config_dict (config : dict) :
  parse_config (Present (Loaded (DDict config)))
  = or_default (spec_lines config) ["No active services found"].
Proof.
  unfold parse_config, parse_config_body; simpl.
  now rewrite collect_spec.
Qed.

(** C2: for a parsed JSON object, [parse_config] returns one line
    ["<SERVICE_NAME> on Port <port>"] for every key ending in [.enabled]
    whose value is the boolean true, in the object's key order, and no line
    for any other key.  SERVICE_NAME is the upper-cased portion of the key
    before its first dot, and the port is the value of the key
    ["<lowercase service_name>.port"], or [N/A] when that key is absent.
    (With no such key the lines are replaced by the sentinel, see C6.) *)
Theorem parse_config_emits_spec_lines (config : dict) :
  collect config config [] = spec_lines config /\
  parse_config (Present (Loaded (DDict config)))
  = match spec_lines config with
    | [] => ["No active services found"]
    | lines => lines
    end.
Proof.
  split.
  - apply collect_spec.
  - rewrite parse_config_dict. destruct (spec_lines config); reflexivity.
Qed.

Lemma prefix_append (p rest : string) : String.prefix p (p ++ rest) = true.
Proof.
  induction p as [|c p IH]; cbn; [now destruct rest|].
  destruct (ascii_dec c c); [exact IH | contradiction].
Qed.

(** C5, amended: [parse_config] returns a list on every state of the config
    file.  A missing file gives exactly [["Error: Config file not found"]];
    when [json.load] raises [JSONDecodeError] the result is the single line
    ["Error: Invalid JSON (<parser message>)"], which begins with
    ["Error: Invalid JSON ("]; every other exception of the [try] block
    ([open] failing, [json.load] raising another class, a loaded document
    that is not an object) gives the single line ["Error: <message>"]. *)
Theorem parse_config_fails_closed :
  parse_config Missing = ["Error: Config file not found"] /\
  (forall msg, parse_config (Present (LoadRaisesDecode msg))
               = ["Error: Invalid JSON (" ++ msg ++ ")"]) /\
  (forall msg, String.prefix "Error: Invalid JSON ("
                             ("Error: Invalid JSON (" ++ msg ++ ")") = true) /\
  (forall msg, parse_config (Present (OpenRaises msg)) = ["Error: " ++ msg]) /\
  (forall msg, parse_config (Present (LoadRaises msg)) = ["Error: " ++ msg]) /\
  (forall doc,
     parse_config (Present (Loaded doc))
     = match doc with
       | DDict config =>
           or_default (spec_lines config) ["No active services found"]
       | _ => ["Error: '" ++ type_name doc ++ "' object has no attribute 'items'"]
       end) /\
  (forall r,
     match parse_config_body r with
     | Ok lines => parse_config (Present r) = lines
     | Err (JSONDecodeError msg) =>
         parse_config (Present r) = ["Error: Invalid JSON (" ++ msg ++ ")"]
     | Err (OtherError msg) => parse_config (Present r) = ["Error: " ++ msg]
     end).
Proof.
  repeat split; try reflexivity.
  - intros msg. apply (prefix_append "Error: Invalid JSON (").
  - intros [config| | | | | |]; try reflexivity. apply parse_config_dict.
  - intros r; unfold parse_config.
    destruct (parse_config_body r) as [lines|[msg|msg]]; reflexivity.
Qed.

Lemma spec_lines_length (config : dict) :
  List.length (spec_lines config) = List.length (filter spec_matches config).
Proof. unfold spec_lines. apply length_map. Qed.

(** C6: [parse_config] never returns an empty list.  For a configuration
    object with N keys matching the enabled-service rule it returns the N
    service lines when N >= 1 and [["No active services found"]] when
    N = 0. *)
Theorem parse_config_never_empty (config_file : file_state) (config : dict) :
  (1 <= List.length (parse_config config_file))%nat /\
  parse_config (Present (Loaded (DDict config)))
  = (if (List.length (filter spec_matches config) =? 0)%nat
     then ["No active services found"]
     else spec_lines config) /\
  List.length (spec_lines config)
  = List.length (filter spec_matches config).
Proof.
  split; [|split].
  - destruct config_file as [|r]; simpl; [lia|].
    destruct (parse_config_body r) as [lines|[msg|msg]] eqn:E; simpl; try lia.
    unfold parse_config_body in E.
    destruct (json_load r) as [doc|e]; [|discriminate].
    destruct (items doc) as [members|e]; [|discriminate].
    injection E as <-.
    destruct (collect members members []); simpl; lia.
  - rewrite parse_config_dict, <- spec_lines_length.
    destruct (spec_lines config); reflexivity.
  - apply spec_lines_length.
Qed.

(** C10: the service-name prefix may be empty.  For a configuration object
    with the key [".enabled"] set to true, [parse_config] returns the line
    [" on Port <port>"], the port being the value of the key [".port"] if
    present and [N/A] otherwise.  (Upper- and lower-casing leave the empty
    string empty.) *)
Theorem parse_config_empty_prefix (config : dict) :
  upper "" = "" -> lower "" = "" ->
  In (".enabled", JBool true) config ->
  In (" on Port " ++ spec_port config ".port")
     (parse_config (Present (Loaded (DDict config)))).
Proof.
  intros Hu Hl Hin.
  rewrite parse_config_dict. apply or_default_in.
  unfold spec_lines.
  apply in_map_iff. exists (".enabled", JBool true). split.
  - unfold spec_line; simpl. now rewrite Hu, Hl.
  - apply filter_In. split; [exact Hin | reflexivity].
Qed.

(** ** StatusProbe *)

(** The four rules of [probe_spec] do not overlap. *)
Lemma probe_spec_functional (r : run_result) (a b : string) :
  probe_spec r a -> probe_spec r b -> a = b.
Proof.
  intros Ha Hb; inversion Ha; subst; inversion Hb; subst;
    reflexivity || contradiction.
Qed.

(** C4: [check_honeypot_status] returns a string on every outcome of the
    [systemctl] call: ["Active"] on exit code 0; ["Inactive"] on a nonzero
    exit code when the stripped standard output is ["inactive"];
    ["Unknown status (<reported text>)"] on any other nonzero outcome, the
    reported text being the stripped standard output; and
    ["Error checking status (<message>)"] when the call raises. *)
Theorem check_honeypot_status_spec (r : run_result) :
  probe_spec r (check_honeypot_status r).
Proof.
  destruct r as [returncode stdout|msg]; simpl; [|constructor].
  destruct (Z.eqb_spec returncode 0) as [->|Hrc]; [constructor|].
  destruct (String.eqb_spec (strip stdout) "inactive") as [Hs|Hs];
    now constructor.
Qed.

(** ** Renderer *)

Lemma draw_services_texts (y : Z) (lines : list string) :
  map op_text (draw_services y lines) = lines.
Proof.
  revert y; induction lines as [|line lines IH]; intros y; simpl;
    [reflexivity | now rewrite IH].
Qed.

Lemma draw_services_length (y : Z) (lines : list string) :
  List.length (draw_services y lines) = List.length lines.
Proof.
  revert y; induction lines as [|line lines IH]; intros y; simpl;
    [reflexivity | now rewrite IH].
Qed.

Lemma draw_services_margin (y : Z) (lines : list string) :
  Forall (fun op => op_x op = 10 /\ op_font op = font_services)
         (draw_services y lines).
Proof.
  revert y; induction lines as [|line lines IH]; intros y; simpl;
    constructor; [split; reflexivity | apply IH].
Qed.

Lemma draw_services_stacked (y : Z) (lines : list string) :
  stacked (draw_services y lines).
Proof.
  revert y; induction lines as [|line [|next lines] IH]; intros y;
    try exact I.
  split; [reflexivity | apply IH].
Qed.

Lemma draw_services_nominal (y : Z) (lines : list string) :
  fold_right (fun op acc => nominal op + line_spacing + acc) 0
             (draw_services y lines)
  = services_height lines.
Proof.
  unfold services_height.
  revert y; induction lines as [|line lines IH]; intros y; [reflexivity|].
  cbn [draw_services fold_right List.length]. rewrite IH.
  unfold nominal; cbn [op_font]. lia.
Qed.

Lemma draw_services_measured (y : Z) (lines : list string) :
  Forall (fun line => textbbox3 font_services line = textbbox3 font_services "A")
         lines ->
  fold_right (fun op acc => measured op + line_spacing + acc) 0
             (draw_services y lines)
  = services_height lines.
Proof.
  unfold services_height.
  intros H; revert y; induction H as [|line lines Hl _ IH]; intros y;
    [reflexivity|].
  cbn [draw_services fold_right List.length]. rewrite IH.
  unfold measured; cbn [op_font op_text]. rewrite Hl. lia.
Qed.

(** C7: whatever the number of services, the service lines drawn are the
    first 8 entries, in order, one text each, stacked one below the other at
    the left margin; never more than 8. *)
Theorem at_most_eight_service_lines (status : string) (services : list string) :
  map op_text (service_ops status services) = firstn 8 services /\
  List.length (service_ops status services)
  = Nat.min 8 (List.length services) /\
  (List.length (service_ops status services) <= 8)%nat /\
  Forall (fun op => op_x op = 10 /\ op_font op = font_services)
         (service_ops status services) /\
  stacked (service_ops status services).
Proof.
  unfold service_ops, draw_block; cbn [skipn].
  repeat split.
  - apply draw_services_texts.
  - now rewrite draw_services_length, length_firstn.
  - rewrite draw_services_length, length_firstn. lia.
  - apply draw_services_margin.
  - apply draw_services_stacked.
Qed.

Lemma start_y_centered (status : string) (services : list string) :
  2 * start_y status services
  <= Z.max 0 (epd_width - total_text_height status services)
  <= 2 * start_y status services + 1.
Proof.
  unfold start_y.
  set (d := epd_width - total_text_height status services).
  pose proof (Z.div_mod d 2 ltac:(lia)) as Hd.
  pose proof (Z.mod_pos_bound d 2 ltac:(lia)) as Hm.
  lia.
Qed.

Lemma start_y_margins (status : string) (services : list string) :
  (total_text_height status services <= epd_width ->
   0 <= (epd_width - (start_y status services
                      + total_text_height status services))
        - start_y status services <= 1) /\
  (epd_width < total_text_height status services ->
   start_y status services = 0).
Proof.
  pose proof (start_y_centered status services) as H.
  assert (H0 : 0 <= start_y status services) by (unfold start_y; lia).
  split; intros Hfit; lia.
Qed.

(** C3, amended: when at most 8 services are supplied and the status font
    measures ["Status: <status>"] as high as the status itself, the total
    height used for the vertical placement is the measured height of the
    title, the status and the heading, plus the height of the reference text
    ["A"] for every drawn service line, plus 5px per line and the one 10px
    gap; drawing starts at [y = max(0, (epd.width - total) // 2)]; when the
    total is at most [epd.width], the margin below a block of that height is
    the margin above it or one pixel more, and when the total exceeds
    [epd.width] drawing starts at [y = 0]; and the status line is the status
    string as it is, at the left margin. *)
Theorem layout_total_height (status : string) (services : list string) :
  (List.length services <= 8)%nat ->
  textbbox3 font_status ("Status: " ++ status) = textbbox3 font_status status ->
  total_text_height status services
  = budget_height (draw_block status services) /\
  map op_y (firstn 1 (draw_block status services))
  = [Z.max 0 ((epd_width - total_text_height status services) / 2)] /\
  (total_text_height status services <= epd_width ->
   0 <= (epd_width - (start_y status services
                      + total_text_height status services))
        - start_y status services <= 1) /\
  (epd_width < total_text_height status services ->
   start_y status services = 0) /\
  map (fun op => (op_x op, op_text op, op_font op))
      (firstn 1 (skipn 1 (draw_block status services)))
  = [(10, status, font_status)].
Proof.
  intros Hlen Hstatus.
  split; [|split; [reflexivity|
           split; [apply start_y_margins|
           split; [apply start_y_margins | reflexivity]]]].
  unfold budget_height, draw_block.
  rewrite (firstn_all2 services) by exact Hlen.
  cbn [firstn skipn fold_right].
  rewrite draw_services_nominal.
  unfold total_text_height, measured, status_height, title_height,
    heading_height; cbn [op_font op_text].
  rewrite Hstatus. unfold line_spacing, extra_spacing_after_status. lia.
Qed.

(** When, besides, every service line measures as high as ["A"], the total
    is the height of the drawn block as the spec words it. *)
Lemma layout_total_is_block_height (status : string) (services : list string) :
  (List.length services <= 8)%nat ->
  textbbox3 font_status ("Status: " ++ status) = textbbox3 font_status status ->
  Forall (fun line => textbbox3 font_services line = textbbox3 font_services "A")
         services ->
  total_text_height status services
  = block_height (draw_block status services).
Proof.
  intros Hlen Hstatus Hlines.
  unfold block_height, draw_block.
  rewrite (firstn_all2 services) by exact Hlen.
  cbn [fold_right].
  rewrite draw_services_measured by exact Hlines.
  unfold total_text_height, measured, status_height, title_height,
    heading_height; cbn [op_font op_text].
  rewrite Hstatus. unfold line_spacing, extra_spacing_after_status. lia.
Qed.

(** ** Loop *)

Lemma list_eqb_eq (a b : list string) : list_eqb a b = true <-> a = b.
Proof.
  unfold list_eqb; destruct (list_eq_dec string_dec a b); split;
    congruence.
Qed.

(** The test of line 112 is the value comparison of the computed pair with
    the stored one. *)
Lemma changed_iff (p : string * list string) (s : snapshot) :
  ne_string (fst p) (last_status s) || ne_list (snd p) (last_services s) = true
  <-> differs p s.
Proof.
  unfold differs; destruct p as [st sv], s as [[ls|] [lv|]]; simpl;
    try (split; [discriminate | reflexivity]).
  - rewrite orb_true_iff, !negb_true_iff, String.eqb_neq.
    rewrite <- not_true_iff_false, list_eqb_eq.
    split.
    + intros [H|H] E; injection E as E1 E2; contradiction.
    + intros H. destruct (string_dec st ls) as [->|Hs]; [|now left].
      right; intros ->; now apply H.
  - split; [discriminate|]. intros _. apply orb_true_r.
Qed.

Lemma unchanged_iff (p : string * list string) (s : snapshot) :
  ne_string (fst p) (last_status s) || ne_list (snd p) (last_services s) = false
  <-> ~ differs p s.
Proof. rewrite <- changed_iff, not_true_iff_false. reflexivity. Qed.

Lemma taken_unchanged (p : string * list string) : ~ differs p (taken p).
Proof. unfold differs, taken; simpl; intros H; now apply H. Qed.

Lemma no_snapshot_differs (p : string * list string) : differs p no_snapshot.
Proof. unfold differs; simpl; discriminate. Qed.

(** What a tick does, case by case. *)
Lemma tick_unfold (w : world) (s : snapshot) :
  tick w s =
  match w_poll_fault w with
  | Some e => (Raises e, s, [])
  | None =>
      let p := polled w in
      if ne_string (fst p) (last_status s) || ne_list (snd p) (last_services s)
      then
        match w_render_fault w with
        | Some (n, e) =>
            (Raises e, s,
             PrintLine "Changes detected. Refreshing display..."
             :: CallDisplay (fst p) (snd p)
             :: firstn n (display_calls (fst p) (snd p)))
        | None =>
            (match w_sleep_fault w with
             | Some e => Raises e
             | None => Returns tt
             end,
             taken p,
             PrintLine "Changes detected. Refreshing display..."
             :: CallDisplay (fst p) (snd p)
             :: (display_calls (fst p) (snd p)
                 ++ [TimeSleep REFRESH_INTERVAL])%list)
        end
      else
        (match w_sleep_fault w with
         | Some e => Raises e
         | None => Returns tt
         end,
         s,
         [PrintLine "No changes detected. Skipping refresh...";
          TimeSleep REFRESH_INTERVAL])
  end.
Proof.
  unfold tick, bind, may_raise, display_on_epaper, bind, polled, taken.
  destruct (w_poll_fault w) as [e|]; [reflexivity|]; simpl.
  destruct (ne_string _ _ || ne_list _ _); simpl.
  - destruct (w_render_fault w) as [[n e]|]; simpl.
    + now rewrite app_nil_r.
    + destruct (w_sleep_fault w); reflexivity.
  - destruct (w_sleep_fault w); reflexivity.
Qed.

Lemma count_event_app (p : event -> bool) (a b : list event) :
  count_event p (a ++ b) = (count_event p a + count_event p b)%nat.
Proof. unfold count_event. now rewrite filter_app, length_app. Qed.

(** The panel calls of the renderer are neither a call of the renderer nor
    the cleanup call. *)
Lemma display_calls_quiet (n : nat) (status : string) (services : list string) :
  render_calls (firstn n (display_calls status services)) = 0%nat /\
  cleanup_calls (firstn n (display_calls status services)) = 0%nat.
Proof.
  unfold display_calls.
  do 4 (destruct n as [|n]; [split; reflexivity|]).
  destruct n; split; reflexivity.
Qed.

Lemma display_calls_quiet_all (status : string) (services : list string) :
  render_calls (display_calls status services) = 0%nat /\
  cleanup_calls (display_calls status services) = 0%nat.
Proof. split; reflexivity. Qed.

Lemma tick_log_changed (w : world) (s : snapshot) :
  w_poll_fault w = None -> differs (polled w) s ->
  render_calls (tick_log w s) = 1%nat.
Proof.
  intros Hp Hd; unfold tick_log; rewrite tick_unfold, Hp; cbv zeta.
  apply changed_iff in Hd; rewrite Hd.
  destruct (w_render_fault w) as [[n e]|]; cbn [snd].
  - unfold render_calls, count_event; cbn [filter is_call_display List.length].
    f_equal. apply (display_calls_quiet n).
  - reflexivity.
Qed.

Lemma tick_log_unchanged (w : world) (s : snapshot) :
  ~ differs (polled w) s -> render_calls (tick_log w s) = 0%nat.
Proof.
  intros Hd; unfold tick_log; rewrite tick_unfold; cbv zeta.
  apply unchanged_iff in Hd; rewrite Hd.
  destruct (w_poll_fault w); reflexivity.
Qed.

Lemma tick_snapshot_cases (w : world) (s : snapshot) :
  tick_snapshot w s = s \/
  (tick_snapshot w s = taken (polled w) /\ w_poll_fault w = None /\
   w_render_fault w = None /\ differs (polled w) s).
Proof.
  unfold tick_snapshot; rewrite tick_unfold; cbv zeta.
  destruct (w_poll_fault w); [now left|].
  destruct (ne_string _ _ || ne_list _ _) eqn:E; [|now left].
  destruct (w_render_fault w) as [[n e]|]; [now left|].
  right; repeat split; try reflexivity. now apply changed_iff.
Qed.

Lemma tick_returns_snapshot (w : world) (s : snapshot) :
  tick_outcome w s = Returns tt -> ~ differs (polled w) (tick_snapshot w s).
Proof.
  unfold tick_outcome, tick_snapshot; rewrite tick_unfold; cbv zeta.
  destruct (w_poll_fault w); [discriminate|].
  destruct (ne_string _ _ || ne_list _ _) eqn:E.
  - destruct (w_render_fault w) as [[n e]|]; [discriminate|].
    intros _; apply taken_unchanged.
  - intros _; now apply unchanged_iff.
Qed.

(** C1: in a tick that polls a pair, the renderer is called exactly when the
    pair differs by value from the stored snapshot (once if it does, not at
    all if it does not); after a render that returns, the snapshot is the
    new pair; the first tick, from no prior snapshot, always renders; and a
    tick that follows a completed tick with the same pair does not render,
    so the two together render at most once. *)
Theorem tick_renders_iff_changed (w : world) (s : snapshot) :
  w_poll_fault w = None ->
  (differs (polled w) s -> render_calls (tick_log w s) = 1%nat) /\
  (~ differs (polled w) s -> render_calls (tick_log w s) = 0%nat) /\
  (differs (polled w) s -> w_render_fault w = None ->
   tick_snapshot w s = taken (polled w)) /\
  render_calls (tick_log w no_snapshot) = 1%nat /\
  (forall w', polled w' = polled w -> tick_outcome w s = Returns tt ->
     render_calls (tick_log w' (tick_snapshot w s)) = 0%nat /\
     (render_calls (tick_log w s ++ tick_log w' (tick_snapshot w s)) <= 1)%nat).
Proof.
  intros Hp. split; [|split; [|split; [|split]]].
  - now apply tick_log_changed.
  - apply tick_log_unchanged.
  - intros Hd Hr. unfold tick_snapshot; rewrite tick_unfold, Hp, Hr; cbv zeta.
    apply changed_iff in Hd; now rewrite Hd.
  - apply tick_log_changed; [exact Hp | apply no_snapshot_differs].
  - intros w' Hw' Hret.
    assert (H2 : render_calls (tick_log w' (tick_snapshot w s)) = 0%nat).
    { apply tick_log_unchanged. rewrite Hw'. now apply tick_returns_snapshot. }
    split; [exact H2|].
    unfold render_calls in *; rewrite count_event_app, H2.
    destruct (tick_snapshot_cases w s) as [E|(_ & _ & _ & Hd)].
    + pose proof (tick_returns_snapshot w s Hret) as Hn. rewrite E in Hn.
      fold (render_calls (tick_log w s)).
      rewrite tick_log_unchanged; [lia | exact Hn].
    + fold (render_calls (tick_log w s)). rewrite tick_log_changed; auto.
Qed.

(** C8: the stored snapshot changes only after a render that returned.  If
    [display_on_epaper] raises during a tick, the snapshot after the tick is
    the one before it (and the exception leaves the tick); whenever a tick
    changes the snapshot, the renderer was called in it, made all its panel
    calls, and the snapshot is the rendered pair. *)
Theorem render_error_keeps_snapshot (w : world) (s : snapshot) :
  (forall n e, w_render_fault w = Some (n, e) ->
     tick_snapshot w s = s /\
     (w_poll_fault w = None -> differs (polled w) s ->
      tick_outcome w s = Raises e)) /\
  (tick_snapshot w s <> s ->
     w_render_fault w = None /\
     tick_snapshot w s = taken (polled w) /\
     exists post,
       tick_log w s
       = (PrintLine "Changes detected. Refreshing display..."
          :: CallDisplay (fst (polled w)) (snd (polled w))
          :: display_calls (fst (polled w)) (snd (polled w)) ++ post)%list).
Proof.
  split.
  - intros n e Hr. split.
    + destruct (tick_snapshot_cases w s) as [E|(_ & _ & Hnone & _)];
        [exact E | congruence].
    + intros Hp Hd. unfold tick_outcome; rewrite tick_unfold, Hp, Hr; cbv zeta.
      apply changed_iff in Hd. now rewrite Hd.
  - intros Hne.
    destruct (tick_snapshot_cases w s) as [E|(E & Hp & Hr & Hd)];
      [contradiction|].
    repeat split; try assumption.
    exists [TimeSleep REFRESH_INTERVAL].
    unfold tick_log; rewrite tick_unfold, Hp, Hr; cbv zeta.
    apply changed_iff in Hd. now rewrite Hd.
Qed.

Lemma tick_no_cleanup (w : world) (s : snapshot) :
  cleanup_calls (tick_log w s) = 0%nat.
Proof.
  unfold tick_log; rewrite tick_unfold; cbv zeta.
  destruct (w_poll_fault w); [reflexivity|].
  destruct (ne_string _ _ || ne_list _ _); [|reflexivity].
  destruct (w_render_fault w) as [[n e]|]; cbn [snd]; [|reflexivity].
  unfold cleanup_calls, count_event; cbn [filter is_module_exit].
  apply (display_calls_quiet n).
Qed.

Lemma loop_no_cleanup (ws : list world) (s : snapshot) :
  cleanup_calls (snd (loop ws s)) = 0%nat.
Proof.
  revert s; induction ws as [|w ws IH]; intros s; [reflexivity|].
  cbn [loop]; unfold bind.
  pose proof (tick_no_cleanup w s) as Ht; unfold tick_log in Ht.
  destruct (tick w s) as [[[[]|e] s1] log1]; cbn [snd] in *; [|exact Ht].
  specialize (IH s1).
  destruct (loop ws s1) as [[r s2] log2]; cbn [snd] in *.
  unfold cleanup_calls in *. now rewrite count_event_app, Ht, IH.
Qed.

(** Once a tick has raised, nothing the outside would have done later
    matters: the loop is not entered again. *)
Lemma loop_raises_app (ws more : list world) (s s' : snapshot)
    (e : exn) (log : list event) :
  loop ws s = (Raises e, s', log) -> loop (ws ++ more) s = (Raises e, s', log).
Proof.
  revert s log; induction ws as [|w ws IH]; intros s log; [discriminate|].
  cbn [loop app]; unfold bind.
  destruct (tick w s) as [[[[]|e1] s1] log1]; [|trivial].
  destruct (loop ws s1) as [[r s2] log2] eqn:E.
  intros H; injection H as -> -> <-.
  now rewrite (IH _ _ E).
Qed.

Lemma run_unfold (ws : list world) :
  run ws = (fst (fst (loop ws no_snapshot)), snd (fst (loop ws no_snapshot)),
            NewEPD :: snd (loop ws no_snapshot)).
Proof.
  unfold run, bind, emit.
  destruct (loop ws no_snapshot) as [[r s] log]; reflexivity.
Qed.

Lemma run_raises_app (ws more : list world) (s : snapshot)
    (e : exn) (log : list event) :
  run ws = (Raises e, s, log) -> run (ws ++ more) = (Raises e, s, log).
Proof.
  rewrite !run_unfold.
  destruct (loop ws no_snapshot) as [[r s1] log1] eqn:E; cbn [fst snd].
  intros H; injection H as -> -> <-.
  now rewrite (loop_raises_app ws more _ _ _ _ E).
Qed.

Lemma run_no_cleanup (ws : list world) : cleanup_calls (snd (run ws)) = 0%nat.
Proof. rewrite run_unfold; cbn [snd]. apply (loop_no_cleanup ws no_snapshot). Qed.

(** C9, amended: when Ctrl-C ([KeyboardInterrupt]) or an exception derived
    from [Exception] escapes a tick, [main] prints one line, calls
    [epdconfig.module_exit()] and returns: the cleanup call is the last
    thing it does, it is made exactly once in the whole run, and the loop is
    not entered again whatever would have happened next. *)
Theorem main_cleans_up_once (ws : list world) (e : exn) (s : snapshot)
    (log : list event) :
  run ws = (Raises e, s, log) ->
  e = KeyboardInterrupt \/ (exists msg, e = Exception msg) ->
  (exists line, main ws = (Exited, (log ++ [PrintLine line; ModuleExit])%list)) /\
  cleanup_calls log = 0%nat /\
  cleanup_calls (snd (main ws)) = 1%nat /\
  (forall more, main (ws ++ more) = main ws).
Proof.
  intros Hrun He.
  assert (Hquiet : cleanup_calls log = 0%nat).
  { pose proof (run_no_cleanup ws) as H. now rewrite Hrun in H. }
  assert (Hmain : exists line,
             main ws = (Exited, (log ++ [PrintLine line; ModuleExit])%list)).
  { unfold main; rewrite Hrun.
    destruct He as [->|[msg ->]]; eexists; reflexivity. }
  repeat split; try assumption.
  - destruct Hmain as [line ->]; cbn [snd].
    unfold cleanup_calls in *. rewrite count_event_app, Hquiet. reflexivity.
  - intros more. unfold main.
    now rewrite (run_raises_app ws more _ _ _ Hrun), Hrun.
Qed.

(** The two handlers do not cover [SystemExit]: it leaves [main] with no
    cleanup call. *)
Lemma main_system_exit (ws : list world) (s : snapshot) (log : list event) :
  run ws = (Raises SystemExit, s, log) ->
  main ws = (Propagated SystemExit, log) /\ cleanup_calls log = 0%nat.
Proof.
  intros Hrun. split.
  - unfold main; now rewrite Hrun.
  - pose proof (run_no_cleanup ws) as H. now rewrite Hrun in H.
Qed.

(** While no tick raises, [main] stays in the loop and makes no cleanup
    call. *)
Lemma main_still_looping (ws : list world) (s : snapshot) (log : list event) :
  run ws = (Returns tt, s, log) ->
  main ws = (StillLooping, log) /\ cleanup_calls log = 0%nat.
Proof.
  intros Hrun. split.
  - unfold main; now rewrite Hrun.
  - pose proof (run_no_cleanup ws) as H. now rewrite Hrun in H.
Qed.

(** ** Further properties of ConfigReader *)

Lemma dict_get_in (config : dict) (key : string) (v default : value) :
  well_formed config -> In (key, v) config -> dict_get config key default = v.
Proof.
  unfold well_formed.
  induction config as [|[k w] config IH]; intros Hnd Hin; [contradiction|].
  inversion Hnd as [|k' ks Hnotin Hrest]; subst. cbn [dict_get].
  destruct (String.eqb_spec k key) as [->|Hne].
  - destruct Hin as [E|Hin]; [congruence|].
    exfalso. apply Hnotin. apply in_map_iff. now exists (key, v).
  - destruct Hin as [E|Hin]; [congruence | now apply IH].
Qed.

Lemma dict_get_absent (config : dict) (key : string) (default : value) :
  ~ In key (map fst config) -> dict_get config key default = default.
Proof.
  induction config as [|[k w] config IH]; intros Hnotin; [reflexivity|].
  cbn [dict_get]. destruct (String.eqb_spec k key) as [->|Hne].
  - exfalso. apply Hnotin. now left.
  - apply IH. intros Hin. apply Hnotin. now right.
Qed.

Lemma in_spec_lines (config : dict) (key : string) :
  endswith key ".enabled" = true -> In (key, JBool true) config ->
  In (service_line config key) (spec_lines config).
Proof.
  intros Hend Hin. unfold spec_lines.
  apply in_map_iff. exists (key, JBool true). split.
  - symmetry. apply service_line_spec.
  - apply filter_In. split; [exact Hin | exact Hend].
Qed.

(** X1: an enabled key reports under the text before its FIRST dot,
    whatever lies between that dot and [.enabled], and its port is found by
    key wherever the port entry stands in the object: the value of
    ["<lower(upper(prefix))>.port"] if the object has that key, [N/A] if it
    has not. *)
Theorem enabled_key_line (config : dict) (p rest : string) :
  well_formed config ->
  before_first_dot p = p ->
  endswith (p ++ String "." rest) ".enabled" = true ->
  In (p ++ String "." rest, JBool true) config ->
  (forall v, In (lower (upper p) ++ ".port", v) config ->
     In (upper p ++ " on Port " ++ py_str v)
        (parse_config (Present (Loaded (DDict config))))) /\
  (~ In (lower (upper p) ++ ".port") (map fst config) ->
     In (upper p ++ " on Port N/A")
        (parse_config (Present (Loaded (DDict config))))).
Proof.
  intros Hwf Hp Hend Hin.
  pose proof (in_spec_lines config _ Hend Hin) as Hline.
  unfold service_line in Hline.
  rewrite first_part_split, (before_first_dot_no_dot p rest Hp) in Hline.
  split.
  - intros v Hv. rewrite (dict_get_in config _ v _ Hwf Hv) in Hline.
    rewrite parse_config_dict. now apply or_default_in.
  - intros Hno. rewrite (dict_get_absent config _ _ Hno) in Hline.
    rewrite parse_config_dict. now apply or_default_in.
Qed.

(** X2: only the JSON value [true] under a key ending in [.enabled]
    enables a service.  An object in which no such pair occurs (the flags
    are [false], or numbers or strings such as [1] and ["true"], or sit
    under other keys) yields the sentinel line alone. *)
Theorem nothing_enabled (config : dict) :
  (forall key, In (key, JBool true) config -> endswith key ".enabled" = false) ->
  parse_config (Present (Loaded (DDict config))) = ["No active services found"].
Proof.
  intros H. rewrite parse_config_dict.
  assert (E : filter spec_matches config = []).
  { induction config as [|[k v] config IH]; [reflexivity|].
    cbn [filter]. rewrite IH by (intros key Hin; apply H; now right).
    unfold spec_matches; cbn [fst snd].
    destruct v as [|[|]| | | | |]; try reflexivity.
    rewrite (H k); [reflexivity | now left]. }
  unfold spec_lines. now rewrite E.
Qed.

Lemma Permutation_filter_keep {A : Type} (f : A -> bool) (l l' : list A) :
  Permutation l l' -> Permutation (filter f l) (filter f l').
Proof.
  induction 1 as [|x l l' _ IH|x y l|l l' l'' _ IH1 _ IH2]; cbn [filter].
  - constructor.
  - destruct (f x); [now constructor | exact IH].
  - destruct (f x), (f y); try apply Permutation_refl. apply perm_swap.
  - now transitivity (filter f l').
Qed.

Lemma dict_get_permutation (config config' : dict) (key : string)
    (default : value) :
  well_formed config -> Permutation config config' ->
  dict_get config key default = dict_get config' key default.
Proof.
  intros Hwf Hperm.
  assert (Hwf' : well_formed config').
  { unfold well_formed in *.
    eapply Permutation_NoDup; [apply Permutation_map; exact Hperm | exact Hwf]. }
  destruct (in_dec string_dec key (map fst config)) as [Hin|Hno].
  - apply in_map_iff in Hin as ([k v] & Hk & Hin); cbn [fst] in Hk; subst k.
    rewrite (dict_get_in config key v default Hwf Hin).
    symmetry. apply dict_get_in; [exact Hwf'|].
    eapply Permutation_in; eassumption.
  - rewrite (dict_get_absent config key default Hno).
    symmetry. apply dict_get_absent. intros Hin. apply Hno.
    eapply Permutation_in; [apply Permutation_map, Permutation_sym; exact Hperm|].
    exact Hin.
Qed.

(** X3: the lines follow the order of the keys and nothing else.  Listing
    the same members of the object in another order gives the same lines in
    another order. *)
Theorem parse_config_key_order (config config' : dict) :
  well_formed config -> Permutation config config' ->
  Permutation (parse_config (Present (Loaded (DDict config))))
              (parse_config (Present (Loaded (DDict config')))).
Proof.
  intros Hwf Hperm. rewrite !parse_config_dict.
  assert (Hlines : Permutation (spec_lines config) (spec_lines config')).
  { unfold spec_lines.
    rewrite (map_ext (spec_line config) (spec_line config')).
    - apply Permutation_map, Permutation_filter_keep, Hperm.
    - intros [k v]. unfold spec_line. rewrite <- !dict_get_spec_port.
      now rewrite (dict_get_permutation config config' _ _ Hwf Hperm). }
  destruct (spec_lines config) as [|l ls] eqn:E.
  - apply Permutation_nil in Hlines. rewrite Hlines. apply Permutation_refl.
  - destruct (spec_lines config') as [|l' ls'] eqn:E'.
    + apply Permutation_sym, Permutation_nil in Hlines. discriminate.
    + exact Hlines.
Qed.

(** ** Further properties of Renderer *)

Lemma parse_config_has_line (config_file : file_state) :
  (1 <= List.length (parse_config config_file))%nat.
Proof.
  destruct config_file as [|[doc|msg|msg|msg]]; cbn; try lia.
  destruct doc as [config| | | | | |]; cbn; try lia.
  destruct (collect config config []); cbn; lia.
Qed.

Lemma draw_block_texts (status : string) (services : list string) :
  map op_text (draw_block status services)
  = "Not a Honeypot" :: status :: "Listening for:" :: firstn 8 services.
Proof.
  unfold draw_block; cbn [map op_text]. now rewrite draw_services_texts.
Qed.

(** X4: what the panel shows is the title, the status, the heading and the
    first 8 lines of the reader's result, all at the left margin.  As the
    reader never returns an empty list, a rendered canvas holds between 4 and
    11 texts. *)
Theorem canvas_of_reader (status : string) (config_file : file_state) :
  map op_text (img_texts (canvas status (parse_config config_file)))
  = "Not a Honeypot" :: status :: "Listening for:"
    :: firstn 8 (parse_config config_file) /\
  (4 <= List.length (img_texts (canvas status (parse_config config_file)))
   <= 11)%nat /\
  Forall (fun op => op_x op = 10)
         (img_texts (canvas status (parse_config config_file))).
Proof.
  cbn [canvas img_texts]. split; [apply draw_block_texts|]. split.
  - rewrite <- (length_map op_text), draw_block_texts.
    cbn [List.length]. rewrite length_firstn.
    pose proof (parse_config_has_line config_file). lia.
  - unfold draw_block. repeat (constructor; [reflexivity|]).
    eapply Forall_impl; [|apply draw_services_margin].
    now intros op [Hx _].
Qed.

Section Metric.

(** The bottom of a bounding box measured from (0, 0) is not negative. *)
Hypothesis bbox_nonneg : forall f text, 0 <= textbbox3 f text.

Lemma draw_services_below (y : Z) (lines : list string) :
  Forall (fun op => y <= op_y op) (draw_services y lines).
Proof.
  revert y; induction lines as [|line lines IH]; intros y; cbn [draw_services];
    constructor.
  - cbn [op_y]. lia.
  - eapply Forall_impl; [|apply IH].
    intros op Hop; cbn beta in *.
    pose proof (bbox_nonneg font_services line). unfold line_spacing in *. lia.
Qed.

Lemma draw_services_sorted (y : Z) (lines : list string) :
  StronglySorted above (draw_services y lines).
Proof.
  revert y; induction lines as [|line lines IH]; intros y; cbn [draw_services];
    constructor.
  - apply IH.
  - eapply Forall_impl; [|apply draw_services_below].
    intros op Hop; unfold above, measured; cbn [op_y op_font op_text] in *. lia.
Qed.

Lemma draw_block_below_top (status : string) (services : list string) :
  Forall (fun op => 0 <= op_y op) (draw_block status services).
Proof.
  pose proof (bbox_nonneg font_title "Not a Honeypot") as Ht.
  pose proof (bbox_nonneg font_status ("Status: " ++ status)) as Hs.
  pose proof (bbox_nonneg font_heading "Listening for:") as Hh.
  assert (H0 : 0 <= start_y status services) by (unfold start_y; lia).
  unfold draw_block, title_height, status_height, heading_height,
    line_spacing, extra_spacing_after_status in *.
  do 3 (apply Forall_cons; [cbn [op_y]; lia|]).
  eapply Forall_impl; [|apply draw_services_below].
  intros op Hop; cbn beta in *. lia.
Qed.

(** X5: with a font metric that is never negative, no text starts above
    the top edge ([y >= 0]); and if the status is not more than the 10px gap
    higher than the measured ["Status: <status>"], every text ends, with its
    5px spacing, at or above the start of every text drawn after it: the
    lines do not overlap, whatever their number and length. *)
Theorem drawn_lines_do_not_overlap (status : string) (services : list string) :
  textbbox3 font_status status
  <= status_height status + extra_spacing_after_status ->
  Forall (fun op => 0 <= op_y op) (draw_block status services) /\
  StronglySorted above (draw_block status services).
Proof.
  intros Hstatus. split; [apply draw_block_below_top|].
  pose proof (bbox_nonneg font_title "Not a Honeypot") as Ht.
  pose proof (bbox_nonneg font_status ("Status: " ++ status)) as Hs.
  pose proof (bbox_nonneg font_status status) as Hs'.
  pose proof (bbox_nonneg font_heading "Listening for:") as Hh.
  unfold draw_block, title_height, status_height, heading_height,
    line_spacing, extra_spacing_after_status in *.
  set (y3 := _ + (textbbox3 font_heading "Listening for:" + 5)).
  pose proof (draw_services_below y3 (firstn 8 services)) as Hbelow.
  assert (Hrest : forall a : text_op,
             op_y a + measured a + 5 <= y3 ->
             Forall (above a) (draw_services y3 (firstn 8 services))).
  { intros a Ha. eapply Forall_impl; [|exact Hbelow].
    intros op Hop; unfold above, line_spacing; cbn beta in *. lia. }
  apply SSorted_cons; [apply SSorted_cons; [apply SSorted_cons|]|].
  - apply draw_services_sorted.
  - apply Hrest. unfold measured; cbn [op_y op_font op_text]. subst y3. lia.
  - apply Forall_cons.
    + unfold above, measured, line_spacing; cbn [op_y op_font op_text]. lia.
    + apply Hrest. unfold measured; cbn [op_y op_font op_text]. subst y3. lia.
  - apply Forall_cons; [|apply Forall_cons].
    + unfold above, measured, line_spacing; cbn [op_y op_font op_text]. lia.
    + unfold above, measured, line_spacing; cbn [op_y op_font op_text]. lia.
    + apply Hrest. unfold measured; cbn [op_y op_font op_text]. subst y3. lia.
Qed.

Lemma draw_services_bottom (y : Z) (lines : list string) :
  Forall (fun line => textbbox3 font_services line = textbbox3 font_services "A")
         lines ->
  Forall (fun op => op_y op + measured op + line_spacing
                    <= y + services_height lines)
         (draw_services y lines).
Proof.
  pose proof (bbox_nonneg font_services "A") as HA.
  unfold services_height, line_spacing.
  intros H; revert y; induction H as [|line lines Hl _ IH]; intros y;
    cbn [draw_services]; constructor.
  - unfold measured; cbn [op_y op_font op_text List.length]. rewrite Hl. nia.
  - eapply Forall_impl; [|apply IH].
    intros op Hop; cbn beta in *. cbn [List.length]. rewrite Hl in Hop.
    unfold line_spacing in Hop. rewrite Nat2Z.inj_succ. lia.
Qed.

(** X6: when at most 8 services are supplied, every service line measures
    as high as ["A"], the status measures the same with and without the
    ["Status: "] prefix, and the total height is at most [epd.width], every
    drawn text ends, with its spacing, at or above [epd.width]: nothing is
    drawn below the bottom edge of the canvas. *)
Theorem block_fits_canvas (status : string) (services : list string) :
  (List.length services <= 8)%nat ->
  textbbox3 font_status ("Status: " ++ status) = textbbox3 font_status status ->
  Forall (fun line => textbbox3 font_services line = textbbox3 font_services "A")
         services ->
  total_text_height status services <= epd_width ->
  Forall (fun op => 0 <= op_y op /\
                    op_y op + measured op + line_spacing <= epd_width)
         (draw_block status services).
Proof.
  intros Hlen Hstatus Hlines Hfit.
  pose proof (draw_block_below_top status services) as Htop.
  assert (Hbot : Forall (fun op => op_y op + measured op + line_spacing
                                   <= epd_width)
                        (draw_block status services)).
  { pose proof (bbox_nonneg font_title "Not a Honeypot") as Ht.
    pose proof (bbox_nonneg font_status status) as Hs.
    pose proof (bbox_nonneg font_heading "Listening for:") as Hh.
    pose proof (bbox_nonneg font_services "A") as HA.
    assert (Hsv : 0 <= services_height services)
      by (unfold services_height, line_spacing; nia).
    assert (Hy : start_y status services + total_text_height status services
                 <= epd_width).
    { unfold start_y.
      set (d := epd_width - total_text_height status services) in *.
      pose proof (Z.div_mod d 2 ltac:(lia)).
      pose proof (Z.mod_pos_bound d 2 ltac:(lia)). lia. }
    unfold draw_block. rewrite (firstn_all2 services) by exact Hlen.
    unfold total_text_height, title_height, status_height, heading_height,
      line_spacing, extra_spacing_after_status in *.
    rewrite Hstatus in *.
    do 3 (apply Forall_cons;
          [unfold measured; cbn [op_y op_font op_text]; lia|]).
    eapply Forall_impl; [|apply (draw_services_bottom _ services Hlines)].
    intros op Hop; cbn beta in *. unfold line_spacing in *. lia. }
  clear - Htop Hbot.
  induction Htop as [|op ops H0 _ IH]; [constructor|].
  inversion Hbot; subst. constructor; [now split | now apply IH].
Qed.

(** X7: services beyond the 8th are not drawn but still count in the total
    height: the texts are those drawn for the first 8 services alone, the
    total is larger by one budgeted line for each undrawn service, and so the
    block starts no lower than it would for the first 8 services alone. *)
Theorem undrawn_services_raise_block (status : string) (services : list string) :
  map op_text (draw_block status services)
  = map op_text (draw_block status (firstn 8 services)) /\
  total_text_height status services
  = total_text_height status (firstn 8 services)
    + Z.of_nat (List.length services - 8)
      * (textbbox3 font_services "A" + line_spacing) /\
  start_y status services <= start_y status (firstn 8 services).
Proof.
  pose proof (bbox_nonneg font_services "A") as HA.
  assert (Htotal : total_text_height status services
                   = total_text_height status (firstn 8 services)
                     + Z.of_nat (List.length services - 8)
                       * (textbbox3 font_services "A" + line_spacing)).
  { unfold total_text_height, services_height. rewrite length_firstn.
    replace (Z.of_nat (List.length services))
      with (Z.of_nat (Nat.min 8 (List.length services))
            + Z.of_nat (List.length services - 8)) at 1 by lia.
    ring. }
  split; [|split; [exact Htotal|]].
  - rewrite !draw_block_texts. now rewrite firstn_firstn.
  - unfold start_y. apply Z.max_le_compat_l, Z.div_le_mono; [lia|].
    rewrite Htotal. unfold line_spacing. nia.
Qed.

End Metric.

(** ** Further properties of StatusProbe and Loop *)

(** X8: the status shown is ["Active"] exactly when [systemctl] exited
    with code 0 (whatever it printed), and ["Inactive"] exactly when it
    exited with another code and its stripped output is ["inactive"]; neither
    string is ever the report of an unknown state or of a failed call. *)
Theorem status_shown_iff (r : run_result) :
  (check_honeypot_status r = "Active"
   <-> exists stdout, r = Completed 0 stdout) /\
  (check_honeypot_status r = "Inactive"
   <-> exists returncode stdout,
         r = Completed returncode stdout /\ returncode <> 0 /\
         strip stdout = "inactive").
Proof.
  destruct r as [returncode stdout|msg]; cbn [check_honeypot_status].
  - destruct (Z.eqb_spec returncode 0) as [->|Hrc].
    + split; split.
      * intros _. now exists stdout.
      * reflexivity.
      * discriminate.
      * intros (rc & out & E & Hne & _). congruence.
    + destruct (String.eqb_spec (strip stdout) "inactive") as [Hs|Hs].
      * split; split.
        -- discriminate.
        -- intros (out & E). congruence.
        -- intros _. now exists returncode, stdout.
        -- reflexivity.
      * split; split.
        -- cbn; discriminate.
        -- intros (out & E). congruence.
        -- cbn; discriminate.
        -- intros (rc & out & E & _ & Hin). congruence.
  - split; split.
    + cbn; discriminate.
    + intros (out & E). discriminate.
    + cbn; discriminate.
    + intros (rc & out & E & _). discriminate.
Qed.

Lemma changed_stored (p : string * list string)
    (prev : option (string * list string)) :
  ne_string (fst p) (last_status (stored prev))
  || ne_list (snd p) (last_services (stored prev))
  = match prev with
    | None => true
    | Some q => negb (pair_eqb p q)
    end.
Proof.
  destruct prev as [q|]; [|reflexivity].
  unfold pair_eqb; cbn. now rewrite negb_andb.
Qed.

Lemma pair_eqb_eq (p q : string * list string) : pair_eqb p q = true -> p = q.
Proof.
  unfold pair_eqb; destruct p, q; cbn.
  rewrite andb_true_iff, String.eqb_eq, list_eqb_eq. now intros [-> ->].
Qed.

Lemma sleep_calls_app (a b : list event) :
  sleep_calls (a ++ b) = (sleep_calls a + sleep_calls b)%nat.
Proof. apply count_event_app. Qed.

(** A pass in which nothing raises returns, stores the polled pair, sleeps
    once, and renders exactly when the pair is new. *)
Lemma tick_fault_free (w : world) (prev : option (string * list string)) :
  fault_free w ->
  exists log,
    tick w (stored prev) = (Returns tt, stored (Some (polled w)), log) /\
    render_calls log = value_changes prev [polled w] /\
    sleep_calls log = 1%nat /\
    cleanup_calls log = 0%nat.
Proof.
  intros (Hp & Hr & Hs).
  rewrite tick_unfold, Hp, Hr, Hs; cbv zeta. rewrite changed_stored.
  destruct prev as [q|]; [destruct (pair_eqb (polled w) q) eqn:E|]; cbn [negb].
  - pose proof (pair_eqb_eq _ _ E) as Eq.
    eexists; split; [now rewrite <- Eq|].
    cbn [value_changes]; rewrite E. repeat split; reflexivity.
  - eexists; split; [reflexivity|].
    cbn [value_changes]; rewrite E. repeat split; reflexivity.
  - eexists; repeat split; reflexivity.
Qed.

Lemma loop_fault_free (ws : list world) (prev : option (string * list string)) :
  Forall fault_free ws ->
  exists log,
    loop ws (stored prev)
    = (Returns tt, stored (last_pair prev (map polled ws)), log) /\
    render_calls log = value_changes prev (map polled ws) /\
    sleep_calls log = List.length ws /\
    cleanup_calls log = 0%nat.
Proof.
  intros H; revert prev; induction H as [|w ws Hw _ IH]; intros prev.
  - exists []. repeat split; reflexivity.
  - destruct (tick_fault_free w prev Hw) as (log1 & Ht & Hr1 & Hs1 & Hc1).
    destruct (IH (Some (polled w))) as (log2 & Hl & Hr2 & Hs2 & Hc2).
    exists (log1 ++ log2)%list.
    cbn [loop]; unfold bind. rewrite Ht, Hl.
    repeat split.
    + unfold render_calls in *. rewrite count_event_app, Hr1, Hr2.
      cbn [map value_changes]. lia.
    + rewrite sleep_calls_app, Hs1, Hs2. reflexivity.
    + unfold cleanup_calls in *. now rewrite count_event_app, Hc1, Hc2.
Qed.

(** X9: while nothing raises, [main] stays in its loop whatever
    [systemctl] and the config file do (their failures are text to show, not
    errors): after any number of passes it has slept once per pass, has
    rendered once for the first pass and once for every later pass whose
    (status, services) pair differs by value from the pair of the pass before
    it, and has made no cleanup call. *)
Theorem fault_free_run (ws : list world) :
  Forall fault_free ws ->
  exists log,
    main ws = (StillLooping, log) /\
    render_calls log = value_changes None (map polled ws) /\
    sleep_calls log = List.length ws /\
    cleanup_calls log = 0%nat.
Proof.
  intros H.
  destruct (loop_fault_free ws None H) as (log & Hl & Hr & Hs & Hc).
  exists (NewEPD :: log).
  unfold main. rewrite run_unfold. cbn [stored] in Hl. rewrite Hl; cbn [fst snd].
  repeat split; assumption.
Qed.

(** The loop over a sequence of passes is the loop over its first part
    followed, if that returns, by the loop over the rest. *)
Lemma loop_returns_app (ws more : list world) (s s1 : snapshot)
    (log1 : list event) :
  loop ws s = (Returns tt, s1, log1) ->
  loop (ws ++ more) s
  = (fst (fst (loop more s1)), snd (fst (loop more s1)),
     (log1 ++ snd (loop more s1))%list).
Proof.
  revert s log1; induction ws as [|w ws IH]; intros s log1.
  - cbn. intros H; injection H as <- <-.
    now destruct (loop more s) as [[r s2] log2].
  - cbn [loop app]; unfold bind.
    destruct (tick w s) as [[[[]|e] s2] log2]; [|discriminate].
    destruct (loop ws s2) as [[r s3] log3] eqn:E.
    intros H; injection H as -> -> <-.
    rewrite (IH _ _ E); cbn [fst snd]. now rewrite app_assoc.
Qed.

(** X10: a renderer failure is fatal at whatever pass it happens.  If,
    after passes that returned, a pass finds a changed pair and
    [display_on_epaper] raises an [Exception] after [n] of its panel calls,
    then [main] ends that pass there: the log continues with the two lines
    before and at the call, those [n] panel calls, the line
    ["Unexpected error: <message>"] and the cleanup call, and nothing after
    it; the pass does not sleep and later passes do not run. *)
Theorem render_failure_is_fatal (ws more : list world) (w : world)
    (s : snapshot) (log : list event) (n : nat) (msg : string) :
  run ws = (Returns tt, s, log) ->
  w_poll_fault w = None ->
  differs (polled w) s ->
  w_render_fault w = Some (n, Exception msg) ->
  main (ws ++ w :: more)
  = (Exited,
     (log
      ++ PrintLine "Changes detected. Refreshing display..."
         :: CallDisplay (fst (polled w)) (snd (polled w))
         :: firstn n (display_calls (fst (polled w)) (snd (polled w)))
      ++ [PrintLine ("Unexpected error: " ++ msg); ModuleExit])%list).
Proof.
  intros Hrun Hp Hd Hr.
  rewrite run_unfold in Hrun.
  destruct (loop ws no_snapshot) as [[r s1] log1] eqn:E; cbn [fst snd] in Hrun.
  injection Hrun as -> -> <-.
  unfold main. rewrite run_unfold, (loop_returns_app ws (w :: more) _ _ _ E).
  cbn [loop]; unfold bind. rewrite tick_unfold, Hp, Hr; cbv zeta.
  apply changed_iff in Hd. rewrite Hd; cbn [fst snd].
  cbn [app]. now rewrite <- !app_assoc.
Qed.

(** X11: an exception that is neither [KeyboardInterrupt] nor derived from
    [Exception] ([SystemExit]) matches neither handler of [main]: it leaves
    [main] as it came, with no line printed, no cleanup call anywhere in the
    run, and no later pass. *)
Theorem system_exit_skips_cleanup (ws : list world) (s : snapshot)
    (log : list event) :
  run ws = (Raises SystemExit, s, log) ->
  main ws = (Propagated SystemExit, log) /\
  cleanup_calls (snd (main ws)) = 0%nat /\
  (forall more, main (ws ++ more) = main ws).
Proof.
  intros Hrun.
  assert (Hmain : main ws = (Propagated SystemExit, log))
    by (unfold main; now rewrite Hrun).
  split; [exact Hmain|]. split.
  - rewrite Hmain; cbn [snd].
    pose proof (run_no_cleanup ws) as H. now rewrite Hrun in H.
  - intros more. rewrite Hmain. unfold main.
    now rewrite (run_raises_app ws more _ _ _ Hrun).
Qed.

End Program.

(** ** The model on concrete inputs *)

(** The examples of the spec, with the ASCII case maps. *)
Example parse_config_ftp :
  parse_config ascii_upper ascii_lower (Present (Loaded (DDict example_config)))
  = ["FTP on Port 21"].
Proof. reflexivity. Qed.

Example parse_config_ssh :
  parse_config ascii_upper ascii_lower (Present (Loaded (DDict example_ssh)))
  = ["SSH on Port N/A"].
Proof. reflexivity. Qed.

(** The port key is the lower-cased service name: an upper-case key does
    not find its own [.port] sibling. *)
Example parse_config_upper_case_key :
  parse_config ascii_upper ascii_lower
    (Present (Loaded (DDict [("FTP.enabled", JBool true); ("FTP.port", JInt 21)])))
  = ["FTP on Port N/A"].
Proof. reflexivity. Qed.

Example parse_config_not_an_object :
  parse_config ascii_upper ascii_lower (Present (Loaded DList))
  = ["Error: 'list' object has no attribute 'items'"].
Proof. reflexivity. Qed.

Example check_honeypot_status_examples :
  check_honeypot_status ascii_strip (Completed 0 ("active" ++ newline)) = "Active" /\
  check_honeypot_status ascii_strip (Completed 3 ("inactive" ++ newline))
  = "Inactive" /\
  check_honeypot_status ascii_strip (Completed 3 ("failed" ++ newline))
  = "Unknown status (failed)" /\
  check_honeypot_status ascii_strip (RunRaises "[Errno 2] No such file or directory: 'systemctl'")
  = "Error checking status ([Errno 2] No such file or directory: 'systemctl')".
Proof. repeat split; reflexivity. Qed.

Example nine_services_eight_drawn :
  map op_text (service_ops flat_bbox 176 "Active" nine_services)
  = firstn 8 nine_services.
Proof. reflexivity. Qed.

(** A run of [main]: the first pass renders, the second finds nothing
    changed, the third is interrupted during its sleep. *)
Example main_interrupted :
  render_calls (snd (main ascii_upper ascii_lower ascii_strip flat_bbox 176 264
                       [quiet_world; quiet_world; interrupted_world])) = 1%nat /\
  fst (main ascii_upper ascii_lower ascii_strip flat_bbox 176 264
         [quiet_world; quiet_world; interrupted_world]) = Exited.
Proof. split; reflexivity. Qed.

(** ** Witnesses and the counterexample *)

Lemma tick_renders_iff_changed_witness :
  w_poll_fault quiet_world = None /\
  render_calls (tick_log ascii_upper ascii_lower ascii_strip flat_bbox 176 264
                  quiet_world no_snapshot) = 1%nat.
Proof.
  split; [reflexivity|].
  exact (proj1 (proj2 (proj2 (proj2
    (tick_renders_iff_changed ascii_upper ascii_lower ascii_strip flat_bbox
       176 264 quiet_world no_snapshot eq_refl))))).
Defined.

Lemma parse_config_empty_prefix_witness :
  ascii_upper "" = "" /\ ascii_lower "" = "" /\
  In (".enabled", JBool true) [(".enabled", JBool true); (".port", JInt 2525)] /\
  In " on Port 2525"
     (parse_config ascii_upper ascii_lower
        (Present (Loaded (DDict [(".enabled", JBool true); (".port", JInt 2525)])))).
Proof.
  split; [reflexivity|]. split; [reflexivity|]. split; [left; reflexivity|].
  exact (parse_config_empty_prefix ascii_upper ascii_lower
           [(".enabled", JBool true); (".port", JInt 2525)]
           eq_refl eq_refl (or_introl eq_refl)).
Defined.

Lemma layout_total_height_witness :
  (List.length ["SSH on Port N/A"] <= 8)%nat /\
  sample_bbox font_status ("Status: " ++ "Active")
  = sample_bbox font_status "Active" /\
  total_text_height sample_bbox "Active" ["SSH on Port N/A"] <= 176 /\
  total_text_height sample_bbox "Active" ["SSH on Port N/A"]
  = budget_height sample_bbox
      (draw_block sample_bbox 176 "Active" ["SSH on Port N/A"]) /\
  0 <= (176 - (start_y sample_bbox 176 "Active" ["SSH on Port N/A"]
               + total_text_height sample_bbox "Active" ["SSH on Port N/A"]))
       - start_y sample_bbox 176 "Active" ["SSH on Port N/A"] <= 1.
Proof.
  assert (Hlen : (List.length ["SSH on Port N/A"] <= 8)%nat)
    by (repeat constructor).
  assert (Hfit : total_text_height sample_bbox "Active" ["SSH on Port N/A"]
                 <= 176) by (vm_compute; discriminate).
  pose proof (layout_total_height sample_bbox 176 "Active" ["SSH on Port N/A"]
                Hlen eq_refl) as (Htotal & _ & Hmargin & _).
  split; [exact Hlen|]. split; [reflexivity|]. split; [exact Hfit|].
  split; [exact Htotal | exact (Hmargin Hfit)].
Defined.

Lemma render_error_keeps_snapshot_witness :
  w_render_fault broken_font_world = Some (2%nat, Exception "cannot open resource") /\
  tick_snapshot ascii_upper ascii_lower ascii_strip flat_bbox 176 264
    broken_font_world no_snapshot = no_snapshot.
Proof.
  split; [reflexivity|].
  exact (proj1 (proj1
    (render_error_keeps_snapshot ascii_upper ascii_lower ascii_strip flat_bbox
       176 264 broken_font_world no_snapshot)
    2%nat (Exception "cannot open resource") eq_refl)).
Defined.

Lemma main_cleans_up_once_witness :
  cleanup_calls
    (snd (main ascii_upper ascii_lower ascii_strip flat_bbox 176 264
            [quiet_world; broken_font_world])) = 1%nat /\
  main ascii_upper ascii_lower ascii_strip flat_bbox 176 264
    ([quiet_world; broken_font_world] ++ [quiet_world])
  = main ascii_upper ascii_lower ascii_strip flat_bbox 176 264
      [quiet_world; broken_font_world].
Proof.
  assert (H := fun s log Hrun =>
    main_cleans_up_once ascii_upper ascii_lower ascii_strip flat_bbox 176 264
      [quiet_world; broken_font_world] (Exception "cannot open resource")
      s log Hrun (or_intror (ex_intro _ "cannot open resource" eq_refl))).
  specialize (H _ _ eq_refl).
  split; [exact (proj1 (proj2 (proj2 H))) | exact (proj2 (proj2 (proj2 H)) _)].
Defined.

(** C3 as the spec states it fails: the total height is not the sum of the
    drawn lines' measured heights plus spacing and gap (a) when a service
    line is higher than the reference text ["A"], (b) when more than 8
    services are supplied, the total counting all of them, and (c) when
    ["Status: <status>"] does not measure like the status itself. *)
Lemma layout_total_height_counterexample :
  total_text_height sample_bbox "Active" ["SSH on Port N/A"]
  <> block_height sample_bbox
       (draw_block sample_bbox 176 "Active" ["SSH on Port N/A"]) /\
  total_text_height flat_bbox "Active" nine_services
  <> block_height flat_bbox (draw_block flat_bbox 176 "Active" nine_services) /\
  total_text_height empty_aware_bbox "" ["FTP on Port 21"]
  <> block_height empty_aware_bbox
       (draw_block empty_aware_bbox 176 "" ["FTP on Port 21"]).
Proof. repeat split; vm_compute; discriminate. Qed.

(** ** Witnesses of the further properties *)

Lemma enabled_key_line_witness :
  In "SSH on Port 22"
     (parse_config ascii_upper ascii_lower
        (Present (Loaded (DDict nested_config)))).
Proof.
  refine (proj1 (enabled_key_line ascii_upper ascii_lower nested_config
                   "ssh" "banner.enabled" _ eq_refl eq_refl
                   (or_introl eq_refl))
                (JInt 22) _).
  - unfold well_formed.
    repeat (constructor; [cbn; intuition discriminate|]). constructor.
  - right; right; left; reflexivity.
Defined.

Lemma nothing_enabled_witness :
  parse_config ascii_upper ascii_lower (Present (Loaded (DDict untyped_flags)))
  = ["No active services found"].
Proof.
  apply (nothing_enabled ascii_upper ascii_lower untyped_flags).
  intros key [H|[H|[H|[H|[]]]]]; try discriminate H.
  injection H as <-. reflexivity.
Defined.

Lemma parse_config_key_order_witness :
  Permutation
    (parse_config ascii_upper ascii_lower (Present (Loaded (DDict ftp_then_ssh))))
    (parse_config ascii_upper ascii_lower (Present (Loaded (DDict ssh_then_ftp)))).
Proof.
  apply (parse_config_key_order ascii_upper ascii_lower ftp_then_ssh ssh_then_ftp).
  - unfold well_formed.
    repeat (constructor; [cbn; intuition discriminate|]). constructor.
  - apply perm_swap.
Defined.

Lemma nonneg_bbox_nonneg (f : font) (text : string) : 0 <= nonneg_bbox f text.
Proof. apply Z.le_max_l. Qed.

Lemma drawn_lines_do_not_overlap_witness :
  StronglySorted (above nonneg_bbox) (draw_block nonneg_bbox 176 "Active" nine_services).
Proof.
  refine (proj2 (drawn_lines_do_not_overlap nonneg_bbox 176 nonneg_bbox_nonneg
                   "Active" nine_services _)).
  vm_compute. discriminate.
Defined.

Lemma block_fits_canvas_witness :
  Forall (fun op => 0 <= op_y op /\
                    op_y op + measured nonneg_bbox op + line_spacing <= 176)
         (draw_block nonneg_bbox 176 "Active" ["FTP on Port 21"]).
Proof.
  refine (block_fits_canvas nonneg_bbox 176 nonneg_bbox_nonneg
            "Active" ["FTP on Port 21"] _ eq_refl _ _).
  - repeat constructor.
  - repeat constructor.
  - vm_compute. discriminate.
Defined.

Lemma undrawn_services_raise_block_witness :
  start_y nonneg_bbox 176 "Active" nine_services
  <= start_y nonneg_bbox 176 "Active" (firstn 8 nine_services).
Proof.
  exact (proj2 (proj2 (undrawn_services_raise_block nonneg_bbox 176
                         nonneg_bbox_nonneg "Active" nine_services))).
Defined.

Lemma fault_free_run_witness :
  exists log,
    main ascii_upper ascii_lower ascii_strip flat_bbox 176 264
      [quiet_world; quiet_world; quiet_world] = (StillLooping, log) /\
    render_calls log = 1%nat /\ sleep_calls log = 3%nat /\
    cleanup_calls log = 0%nat.
Proof.
  refine (fault_free_run ascii_upper ascii_lower ascii_strip flat_bbox 176 264
            [quiet_world; quiet_world; quiet_world] _).
  repeat constructor.
Defined.

Lemma render_failure_is_fatal_witness :
  fst (main ascii_upper ascii_lower ascii_strip flat_bbox 176 264
         ([quiet_world] ++ broken_font_world :: [quiet_world])) = Exited.
Proof.
  assert (H := fun s log Hrun Hd =>
    render_failure_is_fatal ascii_upper ascii_lower ascii_strip flat_bbox
      176 264 [quiet_world] [quiet_world] broken_font_world s log 2%nat
      "cannot open resource" Hrun eq_refl Hd eq_refl).
  specialize (H _ _ eq_refl).
  rewrite H; [reflexivity|].
  unfold differs; cbn. discriminate.
Defined.

Lemma system_exit_skips_cleanup_witness :
  cleanup_calls
    (snd (main ascii_upper ascii_lower ascii_strip flat_bbox 176 264
            [quiet_world; exiting_world])) = 0%nat.
Proof.
  assert (H := fun s log Hrun =>
    system_exit_skips_cleanup ascii_upper ascii_lower ascii_strip flat_bbox
      176 264 [quiet_world; exiting_world] s log Hrun).
  specialize (H _ _ eq_refl).
  exact (proj1 (proj2 H)).
Defined.

(** C5 as the spec states it fails.  A config file whose text is [NaN] is
    not valid JSON, yet [json.load] accepts it as a float; the error line
    then reports the missing [items] attribute and does not begin with
    ["Error: Invalid JSON ("]. *)
Lemma parse_config_fails_closed_counterexample :
  starts_json_value "NaN" = false /\
  load_literal "NaN" = Some (Loaded DFloat) /\
  parse_config ascii_upper ascii_lower (Present (Loaded DFloat))
  = ["Error: 'float' object has no attribute 'items'"] /\
  String.prefix "Error: Invalid JSON ("
                "Error: 'float' object has no attribute 'items'" = false.
Proof. repeat split; reflexivity. Qed.

(** C9 as the spec states it fails for an exception that is not derived from
    [Exception]: when [SystemExit] escapes the second pass, [main] lets it
    through and the run holds no cleanup call. *)
Lemma main_cleans_up_once_counterexample :
  fst (fst (run ascii_upper ascii_lower ascii_strip flat_bbox 176 264
              [quiet_world; exiting_world])) = Raises SystemExit /\
  fst (main ascii_upper ascii_lower ascii_strip flat_bbox 176 264
         [quiet_world; exiting_world]) = Propagated SystemExit /\
  cleanup_calls
    (snd (main ascii_upper ascii_lower ascii_strip flat_bbox 176 264
            [quiet_world; exiting_world])) = 0%nat.
Proof. repeat split; reflexivity. Qed.
